(** * focus-wizard bridge: blink-rate estimator, metrics collector and
      focus analyzer, embedded from [bridge/src/metrics_collector.cpp] and
      [bridge/src/focus_analyzer.cpp].

    C++ [float] is IEEE-754 binary32; it is modelled with the parametric
    floating-point specification of the standard library ([spec_float],
    precision 24, maximal exponent 128, round to nearest even).  Each
    operation is rounded on its own (no contraction into a fused
    multiply-add), and the statements range over all of [spec_float], which
    contains every value a [float] object can hold.  The monotonic clock
    ([std::chrono::steady_clock]) is an explicit input: every function that
    reads it takes the reading as an argument, a number of nanosecond ticks
    that is not bounded to 64 bits. *)

From Stdlib Require Import Strings.String.
From Stdlib Require Strings.Byte.
From Stdlib Require Import ZArith NArith List Bool Lia Sorted.
From Stdlib Require Import Floats.SpecFloat.
Import ListNotations.

Local Open Scope Z_scope.

(** * The program *)

(** ** Single-precision floats *)

Definition float : Type := spec_float.

Module F32.

Definition prec : Z := 24.
Definition emax : Z := 128.

Definition add : float -> float -> float := SFadd prec emax.
Definition sub : float -> float -> float := SFsub prec emax.
Definition mul : float -> float -> float := SFmul prec emax.
Definition div : float -> float -> float := SFdiv prec emax.
Definition sqrt : float -> float := SFsqrt prec emax.

(** [a < b], [a <= b] and [a > b] of C++: false as soon as one side is a
    NaN. *)
Definition ltb (a b : float) : bool := SFltb a b.
Definition leb (a b : float) : bool := SFleb a b.
Definition gtb (a b : float) : bool := SFltb b a.

(** Conversion of an integer to [float] (round to nearest even), as done
    by [static_cast<float>] and by the usual arithmetic conversions. *)
Definition of_Z (z : Z) : float := binary_normalize prec emax z 0 false.

(** The value of a decimal literal [n/d] with the [f] suffix, for [n] and
    [d] small enough to convert exactly: the correctly rounded quotient. *)
Definition lit (n d : Z) : float := div (of_Z n) (of_Z d).

(** [std::max(a, b)] is [(a < b) ? b : a]; [std::min(a, b)] is
    [(b < a) ? b : a]. *)
Definition max (a b : float) : float := if ltb a b then b else a.
Definition min (a b : float) : float := if ltb b a then b else a.

(** A value a C++ [float] object can hold. *)
Definition valid (x : float) : bool := valid_binary prec emax x.

Definition zero : float := S754_zero false.

(** Conversion of a finite [float] to an integer, truncating toward zero
    ([static_cast<long>]); 0 stands for the values that have none. *)
Definition to_Z (x : float) : Z :=
  match x with
  | S754_finite s m e =>
      cond_Zopp s
        (match e with
         | Z0 => Zpos m
         | Zpos _ => Zpos m * 2 ^ e
         | Zneg _ => Zpos m / 2 ^ (- e)
         end)
  | _ => 0
  end.

End F32.

(** The literals of the two translation units. *)
Definition f_0_0  : float := F32.zero.
Definition f_0_1  : float := Eval vm_compute in F32.lit 1 10.
Definition f_0_15 : float := Eval vm_compute in F32.lit 15 100.
Definition f_0_25 : float := Eval vm_compute in F32.lit 25 100.
Definition f_0_3  : float := Eval vm_compute in F32.lit 3 10.
Definition f_0_5  : float := Eval vm_compute in F32.lit 5 10.
Definition f_0_6  : float := Eval vm_compute in F32.lit 6 10.
Definition f_1_0  : float := Eval vm_compute in F32.of_Z 1.
Definition f_2_0  : float := Eval vm_compute in F32.of_Z 2.
Definition f_3_0  : float := Eval vm_compute in F32.of_Z 3.
Definition f_12_0 : float := Eval vm_compute in F32.of_Z 12.
Definition f_22_0 : float := Eval vm_compute in F32.of_Z 22.
Definition f_25_0 : float := Eval vm_compute in F32.of_Z 25.
Definition f_100_0 : float := Eval vm_compute in F32.of_Z 100.
Definition f_1000_0 : float := Eval vm_compute in F32.of_Z 1000.

(** ** Time

    A [steady_clock::time_point], and a duration between two of them, is a
    count of nanosecond ticks.  The clock is monotonic: successive readings
    never decrease. *)

Definition time_point := Z.

Definition ns_per_ms : Z := 1000000.
Definition ns_per_s : Z := 1000000000.

(** [std::chrono::seconds(n)] converted to the clock's duration. *)
Definition seconds (n : Z) : Z := n * ns_per_s.

(** [duration_cast<milliseconds>(d).count()]: integer division that
    truncates toward zero. *)
Definition duration_cast_ms (d : Z) : Z := Z.quot d ns_per_ms.

(** ** The snapshot ([metrics_collector.hpp]) *)

Record FocusMetrics := {
  pulse_rate_bpm : float;
  pulse_confidence : float;
  has_pulse : bool;
  breathing_rate_bpm : float;
  breathing_confidence : float;
  has_breathing : bool;
  face_detected : bool;
  is_blinking : bool;
  is_talking : bool;
  blink_rate_per_min : float;
  gaze_x : float;
  gaze_y : float;
  has_gaze : bool;
  timestamp_us : Z
}.

(** The default member initialisers of [FocusMetrics]. *)
Definition FocusMetrics_init : FocusMetrics := {|
  pulse_rate_bpm := f_0_0;
  pulse_confidence := f_0_0;
  has_pulse := false;
  breathing_rate_bpm := f_0_0;
  breathing_confidence := f_0_0;
  has_breathing := false;
  face_detected := false;
  is_blinking := false;
  is_talking := false;
  blink_rate_per_min := f_0_0;
  gaze_x := f_0_0;
  gaze_y := f_0_0;
  has_gaze := false;
  timestamp_us := 0
|}.

(** Assignments to single members. *)
Definition set_pulse (v c : float) (m : FocusMetrics) : FocusMetrics :=
  {| pulse_rate_bpm := v; pulse_confidence := c; has_pulse := true;
     breathing_rate_bpm := breathing_rate_bpm m;
     breathing_confidence := breathing_confidence m;
     has_breathing := has_breathing m;
     face_detected := face_detected m; is_blinking := is_blinking m;
     is_talking := is_talking m; blink_rate_per_min := blink_rate_per_min m;
     gaze_x := gaze_x m; gaze_y := gaze_y m; has_gaze := has_gaze m;
     timestamp_us := timestamp_us m |}.

Definition set_breathing (v c : float) (m : FocusMetrics) : FocusMetrics :=
  {| pulse_rate_bpm := pulse_rate_bpm m;
     pulse_confidence := pulse_confidence m; has_pulse := has_pulse m;
     breathing_rate_bpm := v; breathing_confidence := c;
     has_breathing := true;
     face_detected := face_detected m; is_blinking := is_blinking m;
     is_talking := is_talking m; blink_rate_per_min := blink_rate_per_min m;
     gaze_x := gaze_x m; gaze_y := gaze_y m; has_gaze := has_gaze m;
     timestamp_us := timestamp_us m |}.

Definition set_face_detected (b : bool) (m : FocusMetrics) : FocusMetrics :=
  {| pulse_rate_bpm := pulse_rate_bpm m;
     pulse_confidence := pulse_confidence m; has_pulse := has_pulse m;
     breathing_rate_bpm := breathing_rate_bpm m;
     breathing_confidence := breathing_confidence m;
     has_breathing := has_breathing m;
     face_detected := b; is_blinking := is_blinking m;
     is_talking := is_talking m; blink_rate_per_min := blink_rate_per_min m;
     gaze_x := gaze_x m; gaze_y := gaze_y m; has_gaze := has_gaze m;
     timestamp_us := timestamp_us m |}.

Definition set_is_blinking (b : bool) (m : FocusMetrics) : FocusMetrics :=
  {| pulse_rate_bpm := pulse_rate_bpm m;
     pulse_confidence := pulse_confidence m; has_pulse := has_pulse m;
     breathing_rate_bpm := breathing_rate_bpm m;
     breathing_confidence := breathing_confidence m;
     has_breathing := has_breathing m;
     face_detected := face_detected m; is_blinking := b;
     is_talking := is_talking m; blink_rate_per_min := blink_rate_per_min m;
     gaze_x := gaze_x m; gaze_y := gaze_y m; has_gaze := has_gaze m;
     timestamp_us := timestamp_us m |}.

Definition set_is_talking (b : bool) (m : FocusMetrics) : FocusMetrics :=
  {| pulse_rate_bpm := pulse_rate_bpm m;
     pulse_confidence := pulse_confidence m; has_pulse := has_pulse m;
     breathing_rate_bpm := breathing_rate_bpm m;
     breathing_confidence := breathing_confidence m;
     has_breathing := has_breathing m;
     face_detected := face_detected m; is_blinking := is_blinking m;
     is_talking := b; blink_rate_per_min := blink_rate_per_min m;
     gaze_x := gaze_x m; gaze_y := gaze_y m; has_gaze := has_gaze m;
     timestamp_us := timestamp_us m |}.

Definition set_blink_rate_per_min (r : float) (m : FocusMetrics)
  : FocusMetrics :=
  {| pulse_rate_bpm := pulse_rate_bpm m;
     pulse_confidence := pulse_confidence m; has_pulse := has_pulse m;
     breathing_rate_bpm := breathing_rate_bpm m;
     breathing_confidence := breathing_confidence m;
     has_breathing := has_breathing m;
     face_detected := face_detected m; is_blinking := is_blinking m;
     is_talking := is_talking m; blink_rate_per_min := r;
     gaze_x := gaze_x m; gaze_y := gaze_y m; has_gaze := has_gaze m;
     timestamp_us := timestamp_us m |}.

Definition set_gaze (gx gy : float) (m : FocusMetrics) : FocusMetrics :=
  {| pulse_rate_bpm := pulse_rate_bpm m;
     pulse_confidence := pulse_confidence m; has_pulse := has_pulse m;
     breathing_rate_bpm := breathing_rate_bpm m;
     breathing_confidence := breathing_confidence m;
     has_breathing := has_breathing m;
     face_detected := face_detected m; is_blinking := is_blinking m;
     is_talking := is_talking m; blink_rate_per_min := blink_rate_per_min m;
     gaze_x := gx; gaze_y := gy; has_gaze := true;
     timestamp_us := timestamp_us m |}.

Definition set_has_gaze (b : bool) (m : FocusMetrics) : FocusMetrics :=
  {| pulse_rate_bpm := pulse_rate_bpm m;
     pulse_confidence := pulse_confidence m; has_pulse := has_pulse m;
     breathing_rate_bpm := breathing_rate_bpm m;
     breathing_confidence := breathing_confidence m;
     has_breathing := has_breathing m;
     face_detected := face_detected m; is_blinking := is_blinking m;
     is_talking := is_talking m; blink_rate_per_min := blink_rate_per_min m;
     gaze_x := gaze_x m; gaze_y := gaze_y m; has_gaze := b;
     timestamp_us := timestamp_us m |}.

Definition set_timestamp_us (t : Z) (m : FocusMetrics) : FocusMetrics :=
  {| pulse_rate_bpm := pulse_rate_bpm m;
     pulse_confidence := pulse_confidence m; has_pulse := has_pulse m;
     breathing_rate_bpm := breathing_rate_bpm m;
     breathing_confidence := breathing_confidence m;
     has_breathing := has_breathing m;
     face_detected := face_detected m; is_blinking := is_blinking m;
     is_talking := is_talking m; blink_rate_per_min := blink_rate_per_min m;
     gaze_x := gaze_x m; gaze_y := gaze_y m; has_gaze := has_gaze m;
     timestamp_us := t |}.

(** ** Messages of the sensing SDK

    The protobuf classes of [physiology/modules/messages/metrics.h] are not
    part of the repository; they are modelled by the accessors the collector
    calls.  A repeated field is a list ([empty()], [rbegin()], [value(i)],
    [value_size()]). *)

Module Sdk.

Record DetectionStatus := { detected : bool }.

Record MeasurementWithConfidence := { value : float; confidence : float }.

Record Point := { x : float; y : float }.

Record Landmarks := { lm_value : list Point }.

Record Face := {
  blinking : list DetectionStatus;
  talking : list DetectionStatus;
  landmarks : list Landmarks
}.

(** The per-frame message ([Metrics]). *)
Record Metrics := { has_face : bool; face : Face }.

(** The refined message ([MetricsBuffer]). *)
Record MetricsBuffer := {
  mb_has_pulse : bool;
  mb_pulse_rate : list MeasurementWithConfidence;
  mb_has_breathing : bool;
  mb_breathing_rate : list MeasurementWithConfidence;
  mb_has_face : bool;
  mb_face : Face
}.

(** Default instances, what an accessor returns for an unset field. *)
Definition DetectionStatus_default := {| detected := false |}.
Definition Measurement_default :=
  {| value := F32.zero; confidence := F32.zero |}.
Definition Point_default := {| x := F32.zero; y := F32.zero |}.
Definition Landmarks_default := {| lm_value := [] |}.

Definition empty {A} (l : list A) : bool :=
  match l with [] => true | _ :: _ => false end.

(** [*l.rbegin()], only called on a non-empty field. *)
Definition rbegin {A} (l : list A) (d : A) : A := last l d.

(** [value_size()], an [int]. *)
Definition value_size (lm : Landmarks) : Z := Z.of_nat (length (lm_value lm)).

(** [value(i)], only called below [value_size()]. *)
Definition value_at (lm : Landmarks) (i : nat) : Point :=
  nth i (lm_value lm) Point_default.

End Sdk.

(** ** Blink rate estimator ([metrics_collector.cpp], file-level statics) *)

Record BlinkEstimator := {
  blink_timestamps : list time_point;   (* front of the deque first *)
  prev_blink_state : bool
}.

Definition BlinkEstimator_init : BlinkEstimator :=
  {| blink_timestamps := []; prev_blink_state := false |}.

(** The eviction loop: pop the front while it is older than [cutoff]. *)
Fixpoint evict (cutoff : time_point) (q : list time_point)
  : list time_point :=
  match q with
  | [] => []
  | front :: rest => if front <? cutoff then evict cutoff rest else q
  end.

(** [static_cast<float>(blink_timestamps.size())]. *)
Definition float_of_size (n : nat) : float := F32.of_Z (Z.of_nat n).

Definition estimate_blink_rate (now : time_point) (currently_blinking : bool)
    (st : BlinkEstimator) : BlinkEstimator * float :=
  let q :=
    if currently_blinking && negb (prev_blink_state st)
    then blink_timestamps st ++ [now]
    else blink_timestamps st in
  let cutoff := now - seconds 60 in
  let q := evict cutoff q in
  ({| blink_timestamps := q; prev_blink_state := currently_blinking |},
   float_of_size (length q)).

(** ** Metrics collector

    The collector's member [current_metrics_] together with the statics of
    the estimator it calls.  The JSON text each operation returns is a
    rendering of [current_metrics_] and is not modelled. *)

Record Collector := {
  blink : BlinkEstimator;
  current_metrics_ : FocusMetrics
}.

Definition Collector_init : Collector :=
  {| blink := BlinkEstimator_init; current_metrics_ := FocusMetrics_init |}.

Definition current (c : Collector) : FocusMetrics := current_metrics_ c.

Definition update (f : FocusMetrics -> FocusMetrics) (c : Collector)
  : Collector :=
  {| blink := blink c; current_metrics_ := f (current_metrics_ c) |}.

(** The two statements shared by both callbacks:
    [is_blinking = blinking().rbegin()->detected();
     blink_rate_per_min = estimate_blink_rate(is_blinking);]. *)
Definition update_blink (now : time_point) (f : Sdk.Face) (c : Collector)
  : Collector :=
  if negb (Sdk.empty (Sdk.blinking f)) then
    let c :=
      update (set_is_blinking
        (Sdk.detected (Sdk.rbegin (Sdk.blinking f) Sdk.DetectionStatus_default)))
        c in
    let '(st, rate) :=
      estimate_blink_rate now (is_blinking (current_metrics_ c)) (blink c) in
    {| blink := st;
       current_metrics_ := set_blink_rate_per_min rate (current_metrics_ c) |}
  else c.

Definition update_talking (f : Sdk.Face) (c : Collector) : Collector :=
  if negb (Sdk.empty (Sdk.talking f)) then
    update (set_is_talking
      (Sdk.detected (Sdk.rbegin (Sdk.talking f) Sdk.DetectionStatus_default)))
      c
  else c.

Definition process_core_metrics (now : time_point)
    (metrics : Sdk.MetricsBuffer) (timestamp : Z) (c : Collector)
  : Collector :=
  let c := update (set_timestamp_us timestamp) c in
  let c :=
    if Sdk.mb_has_pulse metrics && negb (Sdk.empty (Sdk.mb_pulse_rate metrics))
    then
      let latest := Sdk.rbegin (Sdk.mb_pulse_rate metrics)
                      Sdk.Measurement_default in
      update (set_pulse (Sdk.value latest) (Sdk.confidence latest)) c
    else c in
  let c :=
    if Sdk.mb_has_breathing metrics
       && negb (Sdk.empty (Sdk.mb_breathing_rate metrics))
    then
      let latest := Sdk.rbegin (Sdk.mb_breathing_rate metrics)
                      Sdk.Measurement_default in
      update (set_breathing (Sdk.value latest) (Sdk.confidence latest)) c
    else c in
  if Sdk.mb_has_face metrics then
    let c := update (set_face_detected true) c in
    let c := update_blink now (Sdk.mb_face metrics) c in
    update_talking (Sdk.mb_face metrics) c
  else c.

(** The gaze block of [process_edge_metrics], on the latest landmark set. *)
Definition update_gaze (f : Sdk.Face) (c : Collector) : Collector :=
  if negb (Sdk.empty (Sdk.landmarks f)) then
    let latest_lm := Sdk.rbegin (Sdk.landmarks f) Sdk.Landmarks_default in
    let lm_count := Sdk.value_size latest_lm in
    if 468 <=? lm_count then
      let nose_tip := Sdk.value_at latest_lm 4 in
      let left_cheek := Sdk.value_at latest_lm 234 in
      let right_cheek := Sdk.value_at latest_lm 454 in
      let forehead := Sdk.value_at latest_lm 10 in
      let chin := Sdk.value_at latest_lm 152 in
      let face_center_x :=
        F32.div (F32.add (Sdk.x left_cheek) (Sdk.x right_cheek)) f_2_0 in
      let face_center_y :=
        F32.div (F32.add (Sdk.y forehead) (Sdk.y chin)) f_2_0 in
      let face_width := F32.sub (Sdk.x right_cheek) (Sdk.x left_cheek) in
      let face_height := F32.sub (Sdk.y chin) (Sdk.y forehead) in
      if F32.gtb face_width f_1_0 && F32.gtb face_height f_1_0 then
        update (set_gaze
          (F32.div (F32.sub (Sdk.x nose_tip) face_center_x)
                   (F32.div face_width f_2_0))
          (F32.div (F32.sub (Sdk.y nose_tip) face_center_y)
                   (F32.div face_height f_2_0)))
          c
      else c
    else c
  else c.

Definition process_edge_metrics (now : time_point) (metrics : Sdk.Metrics)
    (c : Collector) : Collector :=
  if Sdk.has_face metrics then
    let c := update (set_face_detected true) c in
    let c := update_blink now (Sdk.face metrics) c in
    let c := update_talking (Sdk.face metrics) c in
    update_gaze (Sdk.face metrics) c
  else
    let c := update (set_face_detected false) c in
    update (set_has_gaze false) c.

(** ** Focus analyzer ([focus_analyzer.hpp], [focus_analyzer.cpp]) *)

Inductive FocusState :=
  | FOCUSED | DISTRACTED | DROWSY | STRESSED | AWAY | TALKING | UNKNOWN.

Definition FocusState_eqb (a b : FocusState) : bool :=
  match a, b with
  | FOCUSED, FOCUSED | DISTRACTED, DISTRACTED | DROWSY, DROWSY
  | STRESSED, STRESSED | AWAY, AWAY | TALKING, TALKING
  | UNKNOWN, UNKNOWN => true
  | _, _ => false
  end.

Record FocusThresholds := {
  blink_rate_drowsy_threshold : float;
  pulse_stressed_threshold : float;
  breathing_stressed_threshold : float;
  gaze_distraction_threshold : float;
  face_absence_timeout_s : float
}.

(** The default member initialisers of [FocusThresholds]. *)
Definition FocusThresholds_init : FocusThresholds := {|
  blink_rate_drowsy_threshold := f_25_0;
  pulse_stressed_threshold := f_100_0;
  breathing_stressed_threshold := f_22_0;
  gaze_distraction_threshold := f_0_3;
  face_absence_timeout_s := f_3_0
|}.

Record FocusAnalyzer := {
  thresholds_ : FocusThresholds;
  current_state_ : FocusState;
  last_face_seen_ : time_point;
  ever_seen_face_ : bool
}.

(** The constructor; [now] is the clock reading it takes. *)
Definition FocusAnalyzer_new (now : time_point) (thresholds : FocusThresholds)
  : FocusAnalyzer :=
  {| thresholds_ := thresholds;
     current_state_ := UNKNOWN;
     last_face_seen_ := now;
     ever_seen_face_ := false |}.

(** What [analyze] hands to [build_json]: the state, the score and the
    snapshot.  The text rendering is not modelled. *)
Record Analysis := {
  state : FocusState;
  focus_score : float;
  snapshot : FocusMetrics
}.

Definition gaze_mag (metrics : FocusMetrics) : float :=
  F32.sqrt (F32.add (F32.mul (gaze_x metrics) (gaze_x metrics))
                    (F32.mul (gaze_y metrics) (gaze_y metrics))).

Definition absence_duration (now last_seen : time_point) : float :=
  F32.div (F32.of_Z (duration_cast_ms (now - last_seen))) f_1000_0.

Definition is_unknown (sf : FocusState * float) : bool :=
  FocusState_eqb (fst sf) UNKNOWN.

(** The named booleans of rules 4 and 5. *)
Definition high_blink_rate (th : FocusThresholds) (metrics : FocusMetrics)
  : bool :=
  F32.gtb (blink_rate_per_min metrics) (blink_rate_drowsy_threshold th).

Definition slow_breathing (metrics : FocusMetrics) : bool :=
  has_breathing metrics && F32.ltb (breathing_rate_bpm metrics) f_12_0.

Definition elevated_pulse (th : FocusThresholds) (metrics : FocusMetrics)
  : bool :=
  has_pulse metrics
  && F32.gtb (pulse_rate_bpm metrics) (pulse_stressed_threshold th).

Definition fast_breathing (th : FocusThresholds) (metrics : FocusMetrics)
  : bool :=
  has_breathing metrics
  && F32.gtb (breathing_rate_bpm metrics) (breathing_stressed_threshold th).

(** The condition of the [if] of rule 4, as written. *)
Definition drowsy_condition (th : FocusThresholds) (metrics : FocusMetrics)
  : bool :=
  high_blink_rate th metrics
  || (high_blink_rate th metrics && slow_breathing metrics).

Definition distracted_score (metrics : FocusMetrics) : float :=
  F32.max f_0_1 (F32.sub f_0_6 (F32.mul (gaze_mag metrics) f_0_3)).

Definition vitals_score (th : FocusThresholds) (metrics : FocusMetrics)
  : float :=
  if has_pulse metrics && F32.gtb (pulse_rate_bpm metrics) f_0_0
  then F32.min f_1_0
         (F32.div (pulse_stressed_threshold th) (pulse_rate_bpm metrics))
  else f_1_0.

Definition analyze (now : time_point) (metrics : FocusMetrics)
    (a : FocusAnalyzer) : FocusAnalyzer * Analysis :=
  let th := thresholds_ a in
  (* track face presence *)
  let last_seen := if face_detected metrics then now else last_face_seen_ a in
  let ever_seen := if face_detected metrics then true else ever_seen_face_ a in
  let sf := (UNKNOWN, f_0_5) in
  (* 1. AWAY *)
  let sf :=
    if ever_seen then
      if negb (face_detected metrics)
         && F32.gtb (absence_duration now last_seen) (face_absence_timeout_s th)
      then (AWAY, f_0_0) else sf
    else sf in
  let can_analyze := face_detected metrics in
  let sf :=
    if is_unknown sf && can_analyze then
      (* 2. TALKING *)
      let sf := if is_talking metrics then (TALKING, f_0_3) else sf in
      (* 3. DISTRACTED *)
      let sf :=
        if is_unknown sf && has_gaze metrics then
          if F32.gtb (gaze_mag metrics) (gaze_distraction_threshold th)
          then (DISTRACTED, distracted_score metrics)
          else sf
        else sf in
      (* 4. DROWSY *)
      let sf :=
        if is_unknown sf then
          if drowsy_condition th metrics then (DROWSY, f_0_15) else sf
        else sf in
      (* 5. STRESSED *)
      let sf :=
        if is_unknown sf then
          if elevated_pulse th metrics && fast_breathing th metrics
          then (STRESSED, f_0_25) else sf
        else sf in
      (* 6. FOCUSED *)
      if is_unknown sf && ever_seen
      then (FOCUSED, vitals_score th metrics)
      else sf
    else sf in
  (* 7. still UNKNOWN *)
  let sf := if is_unknown sf then (fst sf, f_0_5) else sf in
  ({| thresholds_ := th;
      current_state_ := fst sf;
      last_face_seen_ := last_seen;
      ever_seen_face_ := ever_seen |},
   {| state := fst sf; focus_score := snd sf; snapshot := metrics |}).

(** The two callbacks installed by [main]: an update of the collector, then
    a classification of its snapshot, both inside the callback. *)
Definition on_core_metrics (now_collect now_analyze : time_point)
    (metrics : Sdk.MetricsBuffer) (timestamp : Z)
    (ca : Collector * FocusAnalyzer) : Collector * FocusAnalyzer * Analysis :=
  let c := process_core_metrics now_collect metrics timestamp (fst ca) in
  let '(a, r) := analyze now_analyze (current c) (snd ca) in
  (c, a, r).

Definition on_edge_metrics (now_collect now_analyze : time_point)
    (metrics : Sdk.Metrics)
    (ca : Collector * FocusAnalyzer) : Collector * FocusAnalyzer * Analysis :=
  let c := process_edge_metrics now_collect metrics (fst ca) in
  let '(a, r) := analyze now_analyze (current c) (snd ca) in
  (c, a, r).

(** ** Runs

    A sequence of calls, each with the clock reading it takes. *)

Fixpoint run_estimator (calls : list (time_point * bool)) (st : BlinkEstimator)
  : BlinkEstimator * list float :=
  match calls with
  | [] => (st, [])
  | (now, b) :: rest =>
      let '(st1, r) := estimate_blink_rate now b st in
      let '(st2, rs) := run_estimator rest st1 in
      (st2, r :: rs)
  end.

Fixpoint run_analyzer (calls : list (time_point * FocusMetrics))
    (a : FocusAnalyzer) : FocusAnalyzer * list Analysis :=
  match calls with
  | [] => (a, [])
  | (now, m) :: rest =>
      let '(a1, r) := analyze now m a in
      let '(a2, rs) := run_analyzer rest a1 in
      (a2, r :: rs)
  end.

(** ** JSON line emitter ([json_emitter.hpp], [json_emitter.cpp])

    A [std::string] is a list of bytes and the emitter is the sequence of
    bytes written to the standard output so far.  The mutex that serialises
    the writers is not modelled. *)

Definition byte : Type := Byte.byte.

(** A string literal of the source that holds no quote. *)
Definition text (s : string) : list byte := list_byte_of_string s.

Definition quote : byte := Byte.x22.
Definition backslash : byte := Byte.x5c.
Definition newline : byte := Byte.x0a.

Module JsonEmitter.

(** The bytes on the standard output. *)
Definition t : Type := list byte.

(** The value of a [char] in a comparison, [char] being signed; bytes from
    0x80 on are negative (they fail the test below all the same where [char]
    is unsigned). *)
Definition char_value (c : byte) : Z :=
  let n := Z.of_N (Byte.to_N c) in
  if 128 <=? n then n - 256 else n.

Definition hex_digit (n : N) : byte :=
  match n with
  | 0 => Byte.x30 | 1 => Byte.x31 | 2 => Byte.x32 | 3 => Byte.x33
  | 4 => Byte.x34 | 5 => Byte.x35 | 6 => Byte.x36 | 7 => Byte.x37
  | 8 => Byte.x38 | 9 => Byte.x39 | 10 => Byte.x61 | 11 => Byte.x62
  | 12 => Byte.x63 | 13 => Byte.x64 | 14 => Byte.x65 | _ => Byte.x66
  end%N.

(** [snprintf] with the conversion [%04x] of an [unsigned char]. *)
Definition format_04x (v : N) : list byte :=
  [hex_digit ((v / 4096) mod 16); hex_digit ((v / 256) mod 16);
   hex_digit ((v / 16) mod 16); hex_digit (v mod 16)]%N.

(** The [switch] of [escape_json_string], for one character. *)
Definition escape_char (c : byte) : list byte :=
  match c with
  | Byte.x22 => [backslash; quote]
  | Byte.x5c => [backslash; backslash]
  | Byte.x08 => [backslash; Byte.x62]
  | Byte.x0c => [backslash; Byte.x66]
  | Byte.x0a => [backslash; Byte.x6e]
  | Byte.x0d => [backslash; Byte.x72]
  | Byte.x09 => [backslash; Byte.x74]
  | _ =>
      if (0 <=? char_value c) && (char_value c <=? 31)
      then [backslash; Byte.x75] ++ format_04x (Byte.to_N c)
      else [c]
  end.

Fixpoint escape_json_string (input : list byte) : list byte :=
  match input with
  | [] => []
  | c :: rest => escape_char c ++ escape_json_string rest
  end.

(** What [emit] sends to [std::cout] before [std::endl]. *)
Definition record (type json_data : list byte) : list byte :=
  (text "{" ++ [quote] ++ text "type" ++ [quote] ++ text ":" ++ [quote])
  ++ type
  ++ ([quote] ++ text "," ++ [quote] ++ text "data" ++ [quote] ++ text ":")
  ++ json_data ++ text "}".

Definition emit (type json_data : list byte) (out : t) : t :=
  out ++ record type json_data ++ [newline].

Definition emit_status (status_text : list byte) (out : t) : t :=
  let data :=
    (text "{" ++ [quote] ++ text "status" ++ [quote] ++ text ":" ++ [quote])
    ++ escape_json_string status_text ++ ([quote] ++ text "}") in
  emit (text "status") data out.

Definition emit_error (error_text : list byte) (out : t) : t :=
  let data :=
    (text "{" ++ [quote] ++ text "message" ++ [quote] ++ text ":" ++ [quote])
    ++ escape_json_string error_text ++ ([quote] ++ text "}") in
  emit (text "error") data out.

Definition emit_ready (out : t) : t :=
  emit (text "ready") (text "{}") out.

End JsonEmitter.

(** [focus_state_to_string]. *)
Definition focus_state_to_string (s : FocusState) : list byte :=
  match s with
  | FOCUSED => text "focused"
  | DISTRACTED => text "distracted"
  | DROWSY => text "drowsy"
  | STRESSED => text "stressed"
  | AWAY => text "away"
  | TALKING => text "talking"
  | UNKNOWN => text "unknown"
  end.

(** ** The callbacks as events

    The two callbacks [main] installs, as the events of a run of the
    collector. *)

Inductive Callback :=
  | CoreMetrics (metrics : Sdk.MetricsBuffer) (timestamp : Z)
  | EdgeMetrics (metrics : Sdk.Metrics).

Definition collect (now : time_point) (cb : Callback) (c : Collector)
  : Collector :=
  match cb with
  | CoreMetrics metrics timestamp => process_core_metrics now metrics timestamp c
  | EdgeMetrics metrics => process_edge_metrics now metrics c
  end.

Fixpoint run_collector (events : list (time_point * Callback)) (c : Collector)
  : Collector :=
  match events with
  | [] => c
  | (now, cb) :: rest => run_collector rest (collect now cb c)
  end.

(** * Vocabulary of the statements *)

(** The state and the score of an answer. *)
Definition verdict (r : FocusAnalyzer * Analysis) : FocusState * float :=
  (state (snd r), focus_score (snd r)).

(** The condition of rule 4 in the words of the specification: the blink
    rate exceeds the drowsy threshold. *)
Definition drowsy_spec (th : FocusThresholds) (m : FocusMetrics) : bool :=
  F32.gtb (blink_rate_per_min m) (blink_rate_drowsy_threshold th).

(** A snapshot with other breathing fields. *)
Definition with_breathing (present : bool) (rate conf : float)
    (m : FocusMetrics) : FocusMetrics :=
  {| pulse_rate_bpm := pulse_rate_bpm m;
     pulse_confidence := pulse_confidence m; has_pulse := has_pulse m;
     breathing_rate_bpm := rate; breathing_confidence := conf;
     has_breathing := present;
     face_detected := face_detected m; is_blinking := is_blinking m;
     is_talking := is_talking m; blink_rate_per_min := blink_rate_per_min m;
     gaze_x := gaze_x m; gaze_y := gaze_y m; has_gaze := has_gaze m;
     timestamp_us := timestamp_us m |}.

(** The blink onsets of a sequence of calls: the calls whose flag is set
    while the flag of the call before (initially [prev]) was not. *)
Fixpoint onsets (prev : bool) (calls : list (time_point * bool))
  : list time_point :=
  match calls with
  | [] => []
  | (t, b) :: rest =>
      if b && negb prev then t :: onsets b rest else onsets b rest
  end.

(** The trailing 60-second window that ends at [now]. *)
Definition in_window (now t : time_point) : bool :=
  (now - seconds 60 <=? t) && (t <=? now).

Definition onsets_in_window (now : time_point)
    (calls : list (time_point * bool)) : nat :=
  length (filter (in_window now) (onsets false calls)).

(** The rate returned by a call at [now] with flag [b] that follows the
    calls [calls], the first of them made in the initial state. *)
Definition rate_after (calls : list (time_point * bool)) (now : time_point)
    (b : bool) : float :=
  snd (estimate_blink_rate now b
         (fst (run_estimator calls BlinkEstimator_init))).

Definition last_flag (prev : bool) (calls : list (time_point * bool)) : bool :=
  snd (last calls (0, prev)).

(** The deque after the push of one call, before the eviction. *)
Definition pushed (now : time_point) (b prev : bool) (q : list time_point)
  : list time_point :=
  if b && negb prev then q ++ [now] else q.

(** The latest landmark set of a frame (the default instance when there is
    none), and the width and height the gaze block derives from a set. *)
Definition latest_landmarks (metrics : Sdk.Metrics) : Sdk.Landmarks :=
  Sdk.rbegin (Sdk.landmarks (Sdk.face metrics)) Sdk.Landmarks_default.

Definition derived_width (lm : Sdk.Landmarks) : float :=
  F32.sub (Sdk.x (Sdk.value_at lm 454)) (Sdk.x (Sdk.value_at lm 234)).

Definition derived_height (lm : Sdk.Landmarks) : float :=
  F32.sub (Sdk.y (Sdk.value_at lm 152)) (Sdk.y (Sdk.value_at lm 10)).

(** "A face is present but the gaze computation cannot proceed": fewer than
    468 points in the latest landmark set, or a derived width or height of
    at most 1.0. *)
Definition gaze_blocked (metrics : Sdk.Metrics) : bool :=
  Sdk.has_face metrics
  && ((Sdk.value_size (latest_landmarks metrics) <? 468)
      || F32.leb (derived_width (latest_landmarks metrics)) f_1_0
      || F32.leb (derived_height (latest_landmarks metrics)) f_1_0).

(** The absence duration as a function of the whole milliseconds. *)
Definition quotient_ms (ms : Z) : float := F32.div (F32.of_Z ms) f_1000_0.

(** ** Rounding, unfolded for precision 24 and maximal exponent 128 *)

Definition fexp32 (e : Z) : Z := Z.max (e - 24) (-149).

(** The right shift [shr_fexp] applies to mantissa [m] at exponent [e]. *)
Definition shift_of (m e : Z) : Z := Z.max 0 (fexp32 (Zdigits2 m + e) - e).

(** The last step of [binary_round_aux]: zero, a finite float, or an
    overflow to infinity. *)
Definition pack (sx : bool) (m e : Z) : float :=
  match m with
  | Z0 => S754_zero sx
  | Zpos p => if e <=? 104 then S754_finite sx p e else S754_infinity sx
  | Zneg _ => S754_nan
  end.

Definition nonneg_or_nan (x : float) : bool :=
  match x with
  | S754_nan | S754_zero _ => true
  | S754_infinity s | S754_finite s _ _ => negb s
  end.

Definition le_or_nan (r b : float) : Prop :=
  r = S754_nan \/ F32.leb r b = true.

(** ** Sample inputs *)

(** A snapshot with a face and nothing else, and an analyzer constructed at
    time 0 with the default thresholds. *)
Definition face_only : FocusMetrics := set_face_detected true FocusMetrics_init.

Definition fresh : FocusAnalyzer := FocusAnalyzer_new 0 FocusThresholds_init.

(** The analyzer after a face at time 0. *)
Definition seen_at_0 : FocusAnalyzer := fst (analyze 0 face_only fresh).

(** Gaze (0.5, 0) and 40 blinks per minute: rules 3 and 4 both trigger. *)
Definition both_triggers : FocusMetrics :=
  set_blink_rate_per_min (F32.of_Z 40) (set_gaze f_0_5 f_0_0 face_only).

(** A face with the given pulse and breathing rates. *)
Definition vitals (pulse breathing : Z) : FocusMetrics :=
  set_breathing (F32.of_Z breathing) f_1_0
    (set_pulse (F32.of_Z pulse) f_1_0 face_only).

(** Thresholds as set by [--pulse_threshold=-100]. *)
Definition negative_pulse_threshold : FocusThresholds := {|
  blink_rate_drowsy_threshold := f_25_0;
  pulse_stressed_threshold := F32.of_Z (-100);
  breathing_stressed_threshold := f_22_0;
  gaze_distraction_threshold := f_0_3;
  face_absence_timeout_s := f_3_0
|}.

(** A landmark set of [n] points: cheeks at x = 100 and 300, forehead and
    chin at y = 100 and 400, nose tip at (250, 260). *)
Definition mesh_point (i : nat) : Sdk.Point :=
  match i with
  | 4%nat => {| Sdk.x := F32.of_Z 250; Sdk.y := F32.of_Z 260 |}
  | 10%nat => {| Sdk.x := F32.of_Z 200; Sdk.y := F32.of_Z 100 |}
  | 152%nat => {| Sdk.x := F32.of_Z 200; Sdk.y := F32.of_Z 400 |}
  | 234%nat => {| Sdk.x := F32.of_Z 100; Sdk.y := F32.of_Z 250 |}
  | 454%nat => {| Sdk.x := F32.of_Z 300; Sdk.y := F32.of_Z 250 |}
  | _ => {| Sdk.x := F32.of_Z 200; Sdk.y := F32.of_Z 250 |}
  end.

Definition mesh (n : nat) : Sdk.Landmarks :=
  {| Sdk.lm_value := map mesh_point (seq 0 n) |}.

(** A set of 468 points that all coincide: width and height 0. *)
Definition flat_mesh : Sdk.Landmarks :=
  {| Sdk.lm_value := repeat (mesh_point 0) 468 |}.

(** A set of 468 points whose coordinates are all NaN: the derived width
    and height are NaN, neither above 1.0 nor at most 1.0. *)
Definition nan_mesh : Sdk.Landmarks :=
  {| Sdk.lm_value := repeat {| Sdk.x := S754_nan; Sdk.y := S754_nan |} 468 |}.

(** A frame with a face, no blink or talk status, and the given landmark
    sets. *)
Definition frame (lm : list Sdk.Landmarks) : Sdk.Metrics :=
  {| Sdk.has_face := true;
     Sdk.face := {| Sdk.blinking := []; Sdk.talking := [];
                    Sdk.landmarks := lm |} |}.

(** The collector after a first frame with a full mesh. *)
Definition after_full_mesh : Collector :=
  process_edge_metrics 0 (frame [mesh 468]) Collector_init.

(** A blink held over two calls, released, and a second blink. *)
Definition two_blinks : list (time_point * bool) :=
  [(0, true); (seconds 10, true); (seconds 20, false); (seconds 30, true)].

(** ** Vocabulary of the further properties *)

(** A decoder of the body of a JSON string: the escapes of RFC 8259, with
    [\uXXXX] accepted below 0x100, and no raw quote or control byte. *)
Definition hex_value (b : byte) : option N :=
  let n := Byte.to_N b in
  if ((48 <=? n) && (n <=? 57))%N then Some (n - 48)%N
  else if ((97 <=? n) && (n <=? 102))%N then Some (n - 87)%N
  else if ((65 <=? n) && (n <=? 70))%N then Some (n - 55)%N
  else None.

Definition hex4 (a b c d : byte) : option byte :=
  match hex_value a, hex_value b, hex_value c, hex_value d with
  | Some x, Some y, Some z, Some w =>
      Byte.of_N (((x * 16 + y) * 16 + z) * 16 + w)
  | _, _, _, _ => None
  end%N.

Definition simple_escape (e : byte) : option byte :=
  if Byte.eqb e Byte.x22 then Some Byte.x22
  else if Byte.eqb e Byte.x5c then Some Byte.x5c
  else if Byte.eqb e Byte.x2f then Some Byte.x2f
  else if Byte.eqb e Byte.x62 then Some Byte.x08
  else if Byte.eqb e Byte.x66 then Some Byte.x0c
  else if Byte.eqb e Byte.x6e then Some Byte.x0a
  else if Byte.eqb e Byte.x72 then Some Byte.x0d
  else if Byte.eqb e Byte.x74 then Some Byte.x09
  else None.

Fixpoint unescape (s : list byte) : option (list byte) :=
  match s with
  | [] => Some []
  | c :: t =>
      if Byte.eqb c backslash then
        match t with
        | [] => None
        | e :: t' =>
            if Byte.eqb e Byte.x75 then
              match t' with
              | a :: b :: c' :: d :: t'' =>
                  match hex4 a b c' d with
                  | Some v => option_map (cons v) (unescape t'')
                  | None => None
                  end
              | _ => None
              end
            else
              match simple_escape e with
              | Some v => option_map (cons v) (unescape t')
              | None => None
              end
        end
      else if Byte.eqb c quote || (Byte.to_N c <? 32)%N then None
      else option_map (cons c) (unescape t)
  end.

(** A byte that needs no escape: not a quote, not a backslash, not below
    0x20. *)
Definition plain (c : byte) : bool :=
  negb (Byte.eqb c quote) && negb (Byte.eqb c backslash)
  && negb (Byte.to_N c <? 32)%N.

(** A byte that is not a control character (in particular not a newline). *)
Definition printable (b : byte) : Prop := (32 <= Byte.to_N b)%N.

Definition printableb (b : byte) : bool := (32 <=? Byte.to_N b)%N.

(** What every reachable state of the collector satisfies. *)
Definition coherent (c : Collector) : Prop :=
  (has_gaze (current c) = true -> face_detected (current c) = true)
  /\ prev_blink_state (blink c) = is_blinking (current c)
  /\ blink_rate_per_min (current c)
     = float_of_size (length (blink_timestamps (blink c))).

(** A repeated field cut down to its latest element. *)
Definition keep_last {A} (l : list A) : list A :=
  match rev l with
  | [] => []
  | latest :: _ => [latest]
  end.

Definition latest_of_face (f : Sdk.Face) : Sdk.Face :=
  {| Sdk.blinking := keep_last (Sdk.blinking f);
     Sdk.talking := keep_last (Sdk.talking f);
     Sdk.landmarks := keep_last (Sdk.landmarks f) |}.

Definition latest_of_frame (m : Sdk.Metrics) : Sdk.Metrics :=
  {| Sdk.has_face := Sdk.has_face m;
     Sdk.face := latest_of_face (Sdk.face m) |}.

Definition latest_of_buffer (m : Sdk.MetricsBuffer) : Sdk.MetricsBuffer :=
  {| Sdk.mb_has_pulse := Sdk.mb_has_pulse m;
     Sdk.mb_pulse_rate := keep_last (Sdk.mb_pulse_rate m);
     Sdk.mb_has_breathing := Sdk.mb_has_breathing m;
     Sdk.mb_breathing_rate := keep_last (Sdk.mb_breathing_rate m);
     Sdk.mb_has_face := Sdk.mb_has_face m;
     Sdk.mb_face := latest_of_face (Sdk.mb_face m) |}.

(** The history after a call at [now] with flag [b] that follows [calls]. *)
Definition history_after (calls : list (time_point * bool)) (now : time_point)
    (b : bool) : list time_point :=
  blink_timestamps
    (fst (estimate_blink_rate now b
            (fst (run_estimator calls BlinkEstimator_init)))).

(** The analysis a callback hands to the emitter. *)
Definition answer (r : Collector * FocusAnalyzer * Analysis) : Analysis :=
  snd r.

(** A refined update with one pulse sample and no face. *)
Definition pulse_only (bpm : Z) : Sdk.MetricsBuffer :=
  {| Sdk.mb_has_pulse := true;
     Sdk.mb_pulse_rate :=
       [{| Sdk.value := F32.of_Z bpm; Sdk.confidence := f_1_0 |}];
     Sdk.mb_has_breathing := false;
     Sdk.mb_breathing_rate := [];
     Sdk.mb_has_face := false;
     Sdk.mb_face :=
       {| Sdk.blinking := []; Sdk.talking := []; Sdk.landmarks := [] |} |}.

(** A frame without a face. *)
Definition no_face_frame : Sdk.Metrics :=
  {| Sdk.has_face := false;
     Sdk.face :=
       {| Sdk.blinking := []; Sdk.talking := []; Sdk.landmarks := [] |} |}.

(** A snapshot with a face whose measurements are all NaN. *)
Definition all_nan : FocusMetrics :=
  {| pulse_rate_bpm := S754_nan; pulse_confidence := f_1_0; has_pulse := true;
     breathing_rate_bpm := S754_nan; breathing_confidence := f_1_0;
     has_breathing := true;
     face_detected := true; is_blinking := false; is_talking := false;
     blink_rate_per_min := S754_nan;
     gaze_x := S754_nan; gaze_y := S754_nan; has_gaze := true;
     timestamp_us := 0 |}.

(** * Properties *)

(** ** Rounding to single precision *)

Section Rounding.

Lemma digits2_pos_bounds (p : positive) :
  2 ^ (Zpos (digits2_pos p) - 1) <= Zpos p < 2 ^ Zpos (digits2_pos p).
Proof.
  induction p as [p IH | p IH |]; cbn [digits2_pos].
  - rewrite Pos2Z.inj_succ.
    replace (Z.succ (Zpos (digits2_pos p)) - 1) with (Z.succ (Zpos (digits2_pos p) - 1)) by lia.
    rewrite !Z.pow_succ_r by lia. lia.
  - rewrite Pos2Z.inj_succ.
    replace (Z.succ (Zpos (digits2_pos p)) - 1) with (Z.succ (Zpos (digits2_pos p) - 1)) by lia.
    rewrite !Z.pow_succ_r by lia. lia.
  - cbn. lia.
Qed.

Lemma Zdigits2_bounds (m : Z) :
  0 < m -> 2 ^ (Zdigits2 m - 1) <= m < 2 ^ Zdigits2 m.
Proof.
  destruct m as [| p | p]; try lia. intros _. apply digits2_pos_bounds.
Qed.

Lemma Zdigits2_pos (m : Z) : 0 < m -> 0 < Zdigits2 m.
Proof. destruct m; cbn; lia. Qed.

(** digits are determined by bounds *)
Lemma Zdigits2_lt_pow (m d : Z) : 0 <= d -> 0 <= m < 2 ^ d -> Zdigits2 m <= d.
Proof.
  intros Hd [H0 Hm].
  destruct (Z.eq_dec m 0) as [->|Hne]; [cbn; lia|].
  destruct (Zdigits2_bounds m ltac:(lia)) as [Hlo _].
  destruct (Z_le_gt_dec (Zdigits2 m) d) as [|Hgt]; [assumption|exfalso].
  assert (2 ^ d <= 2 ^ (Zdigits2 m - 1)) by (apply Z.pow_le_mono_r; lia).
  lia.
Qed.

Lemma Zdigits2_ge_pow (m d : Z) : 0 <= d -> 2 ^ d <= m -> d < Zdigits2 m.
Proof.
  intros Hd Hm.
  assert (0 < 2 ^ d) by (apply Z.pow_pos_nonneg; lia).
  destruct (Zdigits2_bounds m ltac:(lia)) as [_ Hhi].
  destruct (Z_lt_le_dec d (Zdigits2 m)) as [|Hle]; [assumption|exfalso].
  assert (2 ^ (Zdigits2 m) <= 2 ^ d) by (apply Z.pow_le_mono_r; lia).
  lia.
Qed.

Lemma shr_1_m (mrs : shr_record) :
  0 <= shr_m mrs -> shr_m (shr_1 mrs) = shr_m mrs / 2.
Proof.
  destruct mrs as [m r s]. cbn [shr_m]. intros Hm.
  destruct m as [| [p | p |] |]; cbn [shr_1 shr_m]; try lia.
  - reflexivity.
  - rewrite Pos2Z.inj_xI. apply Z.div_unique with 1; lia.
  - rewrite Pos2Z.inj_xO. apply Z.div_unique with 0; lia.
  - reflexivity.
Qed.

Lemma iter_shr_1_m (p : positive) (mrs : shr_record) :
  0 <= shr_m mrs ->
  shr_m (iter_pos shr_1 p mrs) = shr_m mrs / 2 ^ Zpos p.
Proof.
  revert mrs. induction p as [p IH | p IH |]; intros mrs Hm; cbn [iter_pos].
  - assert (H1 : 0 <= shr_m (shr_1 mrs))
      by (rewrite shr_1_m by assumption; apply Z.div_pos; lia).
    assert (H2 : 0 <= shr_m (iter_pos shr_1 p (shr_1 mrs)))
      by (rewrite IH by assumption; apply Z.div_pos; [|apply Z.pow_pos_nonneg]; lia).
    rewrite IH, IH, shr_1_m by assumption.
    assert (0 < 2 ^ Zpos p) by (apply Z.pow_pos_nonneg; lia).
    rewrite !Z.div_div by lia.
    f_equal.
    replace (Zpos p~1) with (1 + Zpos p + Zpos p) by lia.
    rewrite !Z.pow_add_r by lia. lia.
  - assert (H2 : 0 <= shr_m (iter_pos shr_1 p mrs))
      by (rewrite IH by assumption; apply Z.div_pos; [|apply Z.pow_pos_nonneg]; lia).
    rewrite IH, IH by assumption.
    assert (0 < 2 ^ Zpos p) by (apply Z.pow_pos_nonneg; lia).
    rewrite !Z.div_div by lia.
    f_equal.
    replace (Zpos p~0) with (Zpos p + Zpos p) by lia.
    rewrite !Z.pow_add_r by lia. lia.
  - rewrite shr_1_m by assumption. reflexivity.
Qed.

Lemma fexp32_eq e : fexp F32.prec F32.emax e = fexp32 e.
Proof. reflexivity. Qed.

Lemma shr_spec (mrs : shr_record) (e n : Z) :
  0 <= shr_m mrs ->
  shr_m (fst (shr mrs e n)) = shr_m mrs / 2 ^ Z.max 0 n
  /\ snd (shr mrs e n) = e + Z.max 0 n.
Proof.
  intros Hm. destruct n as [| p | p]; cbn [shr fst snd].
  - cbn. rewrite Z.div_1_r. lia.
  - rewrite iter_shr_1_m by assumption.
    replace (Z.max 0 (Zpos p)) with (Zpos p) by lia. split; reflexivity.
  - replace (Z.max 0 (Zneg p)) with 0 by lia.
    cbn. rewrite Z.div_1_r. lia.
Qed.

Lemma shr_record_of_loc_m m l : shr_m (shr_record_of_loc m l) = m.
Proof. destruct l as [| []]; reflexivity. Qed.

Lemma loc_of_shr_record_of_loc m l :
  loc_of_shr_record (shr_record_of_loc m l) = l.
Proof. destruct l as [| []]; reflexivity. Qed.

Lemma round_nearest_even_bounds m l :
  m <= round_nearest_even m l <= m + 1.
Proof.
  destruct l as [| []]; cbn [round_nearest_even]; try lia.
  destruct (Z.even m); lia.
Qed.

Lemma shr_fexp_spec (m e : Z) (l : location) :
  0 <= m ->
  shr_m (fst (shr_fexp F32.prec F32.emax m e l)) = m / 2 ^ shift_of m e
  /\ snd (shr_fexp F32.prec F32.emax m e l) = e + shift_of m e
  /\ (shift_of m e = 0 ->
      loc_of_shr_record (fst (shr_fexp F32.prec F32.emax m e l)) = l).
Proof.
  intros Hm. unfold shr_fexp, shift_of. rewrite fexp32_eq.
  set (n := fexp32 (Zdigits2 m + e) - e).
  destruct (shr_spec (shr_record_of_loc m l) e n) as [H1 H2].
  { rewrite shr_record_of_loc_m. assumption. }
  rewrite shr_record_of_loc_m in H1.
  repeat split; try assumption.
  intros Hn. destruct n as [| p | p]; cbn [shr fst];
    try apply loc_of_shr_record_of_loc. lia.
Qed.

Lemma binary_round_aux_spec (sx : bool) (mx ex : Z) (lx : location) :
  0 <= mx ->
  exists m2,
    let n1 := shift_of mx ex in
    let m1 := mx / 2 ^ n1 in
    let e1 := ex + n1 in
    m1 <= m2 <= m1 + 1
    /\ (n1 = 0 -> lx = loc_Exact -> m2 = m1)
    /\ binary_round_aux F32.prec F32.emax sx mx ex lx
       = pack sx (m2 / 2 ^ shift_of m2 e1) (e1 + shift_of m2 e1).
Proof.
  intros Hmx. unfold binary_round_aux.
  destruct (shr_fexp_spec mx ex lx Hmx) as (H1 & H2 & H3).
  destruct (shr_fexp F32.prec F32.emax mx ex lx) as [mrs' e'].
  cbn [fst snd] in H1, H2, H3.
  set (m2 := round_nearest_even (shr_m mrs') (loc_of_shr_record mrs')).
  assert (Hb : shr_m mrs' <= m2 <= shr_m mrs' + 1)
    by apply round_nearest_even_bounds.
  assert (H0 : 0 <= shr_m mrs').
  { rewrite H1. apply Z.div_pos; [assumption | apply Z.pow_pos_nonneg; [lia|]].
    unfold shift_of. lia. }
  destruct (shr_fexp_spec m2 e' loc_Exact ltac:(lia)) as (H4 & H5 & _).
  destruct (shr_fexp F32.prec F32.emax m2 e' loc_Exact) as [mrs'' e''].
  cbn [fst snd] in H4, H5.
  exists m2. cbn zeta. rewrite <- H1, <- H2.
  split; [assumption|]. split.
  - intros Hn Hl. unfold m2. rewrite (H3 Hn), Hl. reflexivity.
  - rewrite H4, H5. unfold pack. reflexivity.
Qed.

Lemma Zdigits2_unique (m d : Z) :
  2 ^ (d - 1) <= m < 2 ^ d -> 0 < m -> Zdigits2 m = d.
Proof.
  intros [Hlo Hhi] Hm.
  assert (Hd : 0 < d).
  { destruct (Z_lt_le_dec 0 d) as [|Hd]; [assumption|exfalso].
    destruct (Z.eq_dec d 0) as [-> | Hne]; [cbn in Hhi; lia|].
    rewrite Z.pow_neg_r in Hhi by lia. lia. }
  pose proof (Zdigits2_lt_pow m d ltac:(lia) ltac:(lia)).
  pose proof (Zdigits2_ge_pow m (d - 1) ltac:(lia) Hlo).
  lia.
Qed.

Lemma Zdigits2_mul_pow2 (m k : Z) :
  0 < m -> 0 <= k -> Zdigits2 (m * 2 ^ k) = Zdigits2 m + k.
Proof.
  intros Hm Hk.
  destruct (Zdigits2_bounds m Hm) as [Hlo Hhi].
  pose proof (Zdigits2_pos m Hm) as Hd.
  assert (Hp : 0 < 2 ^ k) by (apply Z.pow_pos_nonneg; lia).
  apply Zdigits2_unique; [|nia].
  replace (Zdigits2 m + k - 1) with (Zdigits2 m - 1 + k) by lia.
  rewrite !Z.pow_add_r by lia. nia.
Qed.

Lemma shift_of_fits (m e : Z) :
  0 <= m < 2 ^ 24 -> -149 <= e -> shift_of m e = 0.
Proof.
  intros Hm He. unfold shift_of, fexp32.
  pose proof (Zdigits2_lt_pow m 24 ltac:(lia) Hm). lia.
Qed.

Lemma div_pow2_lt (m n d : Z) :
  0 <= n -> n <= d -> 0 <= m < 2 ^ d -> m / 2 ^ n < 2 ^ (d - n).
Proof.
  intros Hn Hd [H0 Hm].
  assert (Hp : 0 < 2 ^ n) by (apply Z.pow_pos_nonneg; lia).
  apply Z.div_lt_upper_bound; [assumption|].
  rewrite <- Z.pow_add_r by lia. replace (n + (d - n)) with d by lia.
  assumption.
Qed.

Lemma binary_round_aux_norm (sx : bool) (mx ex : Z) (lx : location) :
  0 <= mx ->
  exists m2,
    let n1 := shift_of mx ex in
    let m1 := mx / 2 ^ n1 in
    let e1 := ex + n1 in
    m1 <= m2 <= m1 + 1
    /\ (n1 = 0 -> lx = loc_Exact -> m2 = m1)
    /\ 0 <= m1 < 2 ^ 24 /\ -149 <= e1
    /\ binary_round_aux F32.prec F32.emax sx mx ex lx
       = if m2 <? 2 ^ 24 then pack sx m2 e1 else pack sx (2 ^ 23) (e1 + 1).
Proof.
  intros Hmx.
  destruct (binary_round_aux_spec sx mx ex lx Hmx) as (m2 & Hb & Hex & Heq).
  exists m2. cbn zeta in *.
  set (n1 := shift_of mx ex) in *.
  assert (Hn1 : 0 <= n1) by (unfold n1, shift_of; lia).
  assert (Hp : 0 < 2 ^ n1) by (apply Z.pow_pos_nonneg; lia).
  assert (Hm1 : 0 <= mx / 2 ^ n1 < 2 ^ 24).
  { split; [apply Z.div_pos; lia|].
    destruct (Z.eq_dec mx 0) as [-> | Hne]; [rewrite Z.div_0_l by lia; lia|].
    destruct (Zdigits2_bounds mx ltac:(lia)) as [_ Hhi].
    pose proof (Zdigits2_pos mx ltac:(lia)) as Hd.
    destruct (Z_le_gt_dec n1 (Zdigits2 mx)) as [Hle | Hgt].
    - apply Z.lt_le_trans with (2 ^ (Zdigits2 mx - n1)).
      + apply div_pow2_lt; lia.
      + apply Z.pow_le_mono_r; [lia|].
        unfold n1, shift_of, fexp32. lia.
    - rewrite Z.div_small; [reflexivity|]. split; [lia|].
      apply Z.lt_le_trans with (2 ^ Zdigits2 mx); [lia|].
      apply Z.pow_le_mono_r; lia. }
  assert (He1 : -149 <= ex + n1) by (unfold n1, shift_of, fexp32; lia).
  repeat split; try lia; try assumption.
  rewrite Heq.
  destruct (Z.ltb_spec m2 (2 ^ 24)) as [Hlt | Hge].
  - rewrite shift_of_fits by lia. rewrite Z.div_1_r, Z.add_0_r. reflexivity.
  - assert (Hm2 : m2 = 2 ^ 24) by lia.
    assert (Hs : shift_of m2 (ex + n1) = 1).
    { unfold shift_of, fexp32. rewrite Hm2.
      change (Zdigits2 (2 ^ 24)) with 25. lia. }
    rewrite Hs, Hm2. reflexivity.
Qed.

Lemma iter_xO_pow2 (m d : positive) :
  Zpos (Pos.iter xO m d) = Zpos m * 2 ^ Zpos d.
Proof.
  induction d as [| d IH] using Pos.peano_ind.
  - cbn [Pos.iter]. rewrite Pos2Z.inj_xO. change (2 ^ 1) with 2. lia.
  - rewrite Pos.iter_succ, Pos2Z.inj_xO, IH, Pos2Z.inj_succ.
    rewrite Z.pow_succ_r by lia. lia.
Qed.

Lemma shl_align_spec (mx : positive) (ex ex' : Z) :
  snd (shl_align mx ex ex') = Z.min ex ex'
  /\ Zpos (fst (shl_align mx ex ex')) = Zpos mx * 2 ^ (ex - Z.min ex ex').
Proof.
  unfold shl_align. destruct (ex' - ex) as [| d | d] eqn:Hd; cbn [fst snd].
  - replace (Z.min ex ex') with ex by lia.
    rewrite Z.sub_diag. change (2 ^ 0) with 1. lia.
  - replace (Z.min ex ex') with ex by lia.
    rewrite Z.sub_diag. change (2 ^ 0) with 1. lia.
  - replace (Z.min ex ex') with ex' by lia.
    rewrite iter_xO_pow2. replace (ex - ex') with (Zpos d) by lia.
    split; reflexivity.
Qed.

Lemma binary_round_exact (sx : bool) (mx : positive) (ex : Z) :
  let t := fexp32 (Zdigits2 (Zpos mx) + ex) in
  t <= ex ->
  0 <= Zpos mx * 2 ^ (ex - t) < 2 ^ 24
  /\ -149 <= t
  /\ binary_round F32.prec F32.emax sx mx ex
     = pack sx (Zpos mx * 2 ^ (ex - t)) t.
Proof.
  intros t Ht. unfold binary_round. rewrite fexp32_eq.
  change (Zpos (digits2_pos mx)) with (Zdigits2 (Zpos mx)). fold t.
  destruct (shl_align_spec mx ex t) as [He Hm].
  destruct (shl_align mx ex t) as [mz ez]. cbn [fst snd] in He, Hm.
  replace (Z.min ex t) with t in * by lia. subst ez.
  assert (Hp : 0 < 2 ^ (ex - t)) by (apply Z.pow_pos_nonneg; lia).
  assert (Hdig : Zdigits2 (Zpos mz) = Zdigits2 (Zpos mx) + (ex - t)).
  { rewrite Hm. apply Zdigits2_mul_pow2; lia. }
  assert (Ht149 : -149 <= t) by (unfold t, fexp32; lia).
  assert (Hd24 : Zdigits2 (Zpos mz) <= 24) by (unfold t, fexp32 in *; lia).
  assert (Hlt : Zpos mz < 2 ^ 24).
  { destruct (Zdigits2_bounds (Zpos mz) ltac:(lia)) as [_ Hhi].
    apply Z.lt_le_trans with (2 ^ Zdigits2 (Zpos mz)); [assumption|].
    apply Z.pow_le_mono_r; lia. }
  rewrite <- Hm. split; [lia|]. split; [assumption|].
  destruct (binary_round_aux_norm sx (Zpos mz) t loc_Exact ltac:(lia))
    as (m2 & _ & Hex & _ & _ & Heq).
  cbn zeta in *.
  assert (Hs : shift_of (Zpos mz) t = 0) by (apply shift_of_fits; lia).
  rewrite Hs in *. rewrite Z.div_1_r, Z.add_0_r in *.
  rewrite (Hex eq_refl eq_refl) in Heq.
  rewrite Heq. destruct (Z.ltb_spec (Zpos mz) (2 ^ 24)); [reflexivity | lia].
Qed.

Lemma binary_round_inexact (sx : bool) (mx : positive) (ex : Z) :
  let t := fexp32 (Zdigits2 (Zpos mx) + ex) in
  ex < t ->
  exists m2,
    let m1 := Zpos mx / 2 ^ (t - ex) in
    m1 <= m2 <= m1 + 1 /\ 0 <= m1 < 2 ^ 24
    /\ binary_round F32.prec F32.emax sx mx ex
       = if m2 <? 2 ^ 24 then pack sx m2 t else pack sx (2 ^ 23) (t + 1).
Proof.
  intros t Ht. unfold binary_round. rewrite fexp32_eq.
  change (Zpos (digits2_pos mx)) with (Zdigits2 (Zpos mx)). fold t.
  destruct (shl_align_spec mx ex t) as [He Hm].
  destruct (shl_align mx ex t) as [mz ez]. cbn [fst snd] in He, Hm.
  replace (Z.min ex t) with ex in * by lia. subst ez.
  rewrite Z.sub_diag in Hm. change (2 ^ 0) with 1 in Hm.
  assert (mz = mx) by lia. subst mz.
  destruct (binary_round_aux_norm sx (Zpos mx) ex loc_Exact ltac:(lia))
    as (m2 & Hb & _ & Hlt & _ & Heq).
  cbn zeta in *.
  assert (Hs : shift_of (Zpos mx) ex = t - ex) by (unfold shift_of; fold t; lia).
  rewrite Hs in *. replace (ex + (t - ex)) with t in Heq by lia.
  exists m2. cbn zeta. repeat split; try lia. exact Heq.
Qed.

Lemma binary_round_pack (sx : bool) (mx : positive) (ex : Z) :
  exists M E, 0 <= M /\ binary_round F32.prec F32.emax sx mx ex = pack sx M E.
Proof.
  destruct (Z_le_gt_dec (fexp32 (Zdigits2 (Zpos mx) + ex)) ex) as [Hle | Hgt].
  - destruct (binary_round_exact sx mx ex Hle) as (HM & _ & Heq).
    eexists _, _. split; [|exact Heq]. lia.
  - destruct (binary_round_inexact sx mx ex ltac:(lia)) as (m2 & Hb & Hm1 & Heq).
    cbn zeta in *. rewrite Heq.
    destruct (m2 <? 2 ^ 24); eexists _, _; (split; [|reflexivity]); lia.
Qed.

Lemma binary_round_aux_pack (sx : bool) (mx ex : Z) (lx : location) :
  0 <= mx ->
  exists M E,
    0 <= M /\ binary_round_aux F32.prec F32.emax sx mx ex lx = pack sx M E.
Proof.
  intros Hmx.
  destruct (binary_round_aux_norm sx mx ex lx Hmx) as (m2 & Hb & _ & Hm1 & _ & Heq).
  cbn zeta in *. rewrite Heq.
  destruct (m2 <? 2 ^ 24); eexists _, _; (split; [|reflexivity]); lia.
Qed.

(** Comparisons against a packed value. *)
Lemma leb_pack_neg (M E : Z) (mb : positive) (eb : Z) :
  0 <= M -> F32.leb (pack true M E) (S754_finite false mb eb) = true.
Proof.
  intros HM. destruct M as [| p | p]; [reflexivity | | lia].
  cbn [pack]. destruct (E <=? 104); reflexivity.
Qed.

Lemma leb_zero_pack (M E : Z) :
  0 <= M -> F32.leb (S754_zero false) (pack false M E) = true.
Proof.
  intros HM. destruct M as [| p | p]; [reflexivity | | lia].
  cbn [pack]. destruct (E <=? 104); reflexivity.
Qed.

Lemma leb_pack_bound (M E : Z) (mb : positive) (eb : Z) :
  0 <= M -> E <= eb -> eb <= 104 ->
  (E = eb -> M <= Zpos mb) ->
  F32.leb (pack false M E) (S754_finite false mb eb) = true.
Proof.
  intros HM HE Heb Hm. destruct M as [| p | p]; [reflexivity | | lia].
  cbn [pack]. destruct (Z.leb_spec E 104) as [_ | ?]; [|lia].
  unfold F32.leb, SFleb, SFcompare.
  destruct (Z.compare_spec E eb) as [Heq | Hlt | Hgt]; [| reflexivity | lia].
  specialize (Hm Heq).
  change (Pos.compare_cont Eq p mb) with (Pos.compare p mb).
  destruct (Pos.compare_spec p mb); [reflexivity | reflexivity | lia].
Qed.

(** Rounding a positive value strictly below a normal float stays at or
    below that float. *)
Lemma binary_round_lt_bound (D : positive) (e : Z) (mb : positive) (eb : Z) :
  e <= eb -> -149 <= eb <= 104 ->
  2 ^ 23 <= Zpos mb < 2 ^ 24 ->
  Zpos D < Zpos mb * 2 ^ (eb - e) ->
  F32.leb (binary_round F32.prec F32.emax false D e) (S754_finite false mb eb)
  = true.
Proof.
  intros He Heb Hmb HD.
  set (k := eb - e). assert (Hk : 0 <= k) by (unfold k; lia).
  assert (Hpk : 0 < 2 ^ k) by (apply Z.pow_pos_nonneg; lia).
  assert (Hdig : Zdigits2 (Zpos D) <= 24 + k).
  { apply Zdigits2_lt_pow; [lia|]. split; [lia|].
    rewrite Z.pow_add_r by lia. fold k in HD. nia. }
  set (t := fexp32 (Zdigits2 (Zpos D) + e)).
  assert (Ht : t <= eb) by (unfold t, fexp32, k in *; lia).
  destruct (Z_le_gt_dec t e) as [Hle | Hgt].
  - destruct (binary_round_exact false D e Hle) as (HM & _ & Heq).
    fold t in HM, Heq. rewrite Heq.
    apply leb_pack_bound; try lia.
    intros Hteq. assert (e = eb) by lia.
    replace (e - t) with 0 by lia. fold k in HD. replace k with 0 in HD by (unfold k; lia).
    change (2 ^ 0) with 1 in *. lia.
  - destruct (binary_round_inexact false D e ltac:(lia)) as (m2 & Hb & Hm1 & Heq).
    fold t in Hb, Hm1, Heq. cbn zeta in *. rewrite Heq.
    assert (Hbound : t = eb -> m2 <= Zpos mb).
    { intros Hteq. replace (t - e) with k in Hb by (unfold k; lia).
      assert (Zpos D / 2 ^ k < Zpos mb).
      { apply Z.div_lt_upper_bound; [lia|]. fold k in HD. lia. }
      lia. }
    destruct (Z.ltb_spec m2 (2 ^ 24)) as [Hlt | Hge].
    + apply leb_pack_bound; try lia.
    + assert (t < eb).
      { destruct (Z.eq_dec t eb) as [Heq' | Hne];
          [specialize (Hbound Heq'); lia | lia]. }
      apply leb_pack_bound; try lia.
Qed.

Lemma pack_nonneg (M E : Z) : nonneg_or_nan (pack false M E) = true.
Proof.
  destruct M; cbn [pack]; try reflexivity. destruct (E <=? 104); reflexivity.
Qed.

Lemma sqrt_nonneg (x : float) : nonneg_or_nan (F32.sqrt x) = true.
Proof.
  unfold F32.sqrt, SFsqrt. destruct x as [s | [|] | | [|] m e]; try reflexivity.
  destruct (SFsqrt_core_binary F32.prec F32.emax (Zpos m) e) as [[mz ez] lz] eqn:Hc.
  assert (Hmz : 0 <= mz).
  { unfold SFsqrt_core_binary in Hc.
    destruct (Z.sqrtrem _) as [q r] eqn:Hq in Hc.
    injection Hc as <- _ _.
    match type of Hq with Z.sqrtrem ?n = _ =>
      pose proof (Z.sqrtrem_sqrt n) as Hs; rewrite Hq in Hs;
      cbn [fst] in Hs; rewrite Hs; apply Z.sqrt_nonneg end. }
  destruct (binary_round_aux_pack false mz ez lz Hmz) as (M & E & _ & ->).
  apply pack_nonneg.
Qed.

Lemma mul_nonneg (x y : float) :
  nonneg_or_nan x = true -> nonneg_or_nan y = true ->
  nonneg_or_nan (F32.mul x y) = true.
Proof.
  unfold F32.mul, SFmul.
  destruct x as [sx | sx | | sx mx ex], y as [sy | sy | | sy my ey];
    cbn [nonneg_or_nan]; intros Hx Hy; try reflexivity;
    try (apply negb_true_iff in Hx; subst sx);
    try (apply negb_true_iff in Hy; subst sy); try reflexivity.
  cbn [xorb].
  destruct (binary_round_aux_pack false (Zpos (mx * my)) (ex + ey) loc_Exact
              ltac:(lia)) as (M & E & _ & ->).
  apply pack_nonneg.
Qed.

Lemma leb_refl_finite (s : bool) (m : positive) (e : Z) :
  F32.leb (S754_finite s m e) (S754_finite s m e) = true.
Proof.
  unfold F32.leb, SFleb, SFcompare.
  rewrite Z.compare_refl.
  change (Pos.compare_cont Eq m m) with (Pos.compare m m).
  rewrite Pos.compare_refl. destruct s; reflexivity.
Qed.

Lemma sub_le_bound (mb : positive) (eb : Z) (p : float) :
  -149 <= eb <= 104 -> 2 ^ 23 <= Zpos mb < 2 ^ 24 ->
  nonneg_or_nan p = true ->
  le_or_nan (F32.sub (S754_finite false mb eb) p) (S754_finite false mb eb).
Proof.
  intros Heb Hmb Hp. unfold le_or_nan.
  destruct p as [sp | sp | | sp my ey]; cbn [nonneg_or_nan] in Hp.
  - right. apply leb_refl_finite.
  - apply negb_true_iff in Hp. subst sp. right. reflexivity.
  - left. reflexivity.
  - apply negb_true_iff in Hp. subst sp. right.
    unfold F32.sub, SFsub. cbv beta iota zeta delta [cond_Zopp].
    set (ez := Z.min eb ey).
    destruct (shl_align_spec mb eb ez) as [_ Hx].
    destruct (shl_align_spec my ey ez) as [_ Hy].
    replace (Z.min eb ez) with ez in Hx by (unfold ez; lia).
    replace (Z.min ey ez) with ez in Hy by (unfold ez; lia).
    assert (0 < 2 ^ (ey - ez)) by (apply Z.pow_pos_nonneg; unfold ez; lia).
    destruct (Zpos (fst (shl_align mb eb ez)) - Zpos (fst (shl_align my ey ez)))
      as [| D | D] eqn:HD; cbn [binary_normalize].
    + reflexivity.
    + apply binary_round_lt_bound; try lia; unfold ez; lia.
    + destruct (binary_round_pack true D ez) as (M & E & HM & ->).
      apply leb_pack_neg. assumption.
Qed.

Lemma of_Z_large (z : Z) :
  2 ^ 12 <= z ->
  exists M E, 2 ^ 23 <= M < 2 ^ 24 /\ -11 <= E /\ F32.of_Z z = pack false M E.
Proof.
  intros Hz. destruct z as [| p | p]; try (cbn in Hz; lia).
  unfold F32.of_Z. cbn [binary_normalize].
  pose proof (Zdigits2_ge_pow (Zpos p) 12 ltac:(lia) Hz) as Hd.
  destruct (Zdigits2_bounds (Zpos p) ltac:(lia)) as [Hlo Hhi].
  set (d := Zdigits2 (Zpos p)) in *.
  set (t := fexp32 (d + 0)).
  assert (Ht : t = d - 24) by (unfold t, fexp32; lia).
  destruct (Z_le_gt_dec t 0) as [Hle | Hgt].
  - destruct (binary_round_exact false p 0 Hle) as (HM & _ & Heq).
    fold d t in HM, Heq. rewrite Heq.
    eexists _, _. split; [|split; [|reflexivity]]; [|lia].
    split; [|lia].
    replace (0 - t) with (24 - d) by lia.
    assert (0 < 2 ^ (24 - d)) by (apply Z.pow_pos_nonneg; lia).
    replace 23 with ((d - 1) + (24 - d)) by lia.
    rewrite Z.pow_add_r by lia. nia.
  - destruct (binary_round_inexact false p 0 ltac:(fold d t; lia))
      as (m2 & Hb & Hm1 & Heq).
    fold d t in Hb, Hm1, Heq. cbn zeta in *. rewrite Heq.
    assert (Hm1lo : 2 ^ 23 <= Zpos p / 2 ^ (t - 0)).
    { apply Z.div_le_lower_bound; [apply Z.pow_pos_nonneg; lia|].
      rewrite <- Z.pow_add_r by lia.
      replace (t - 0 + 23) with (d - 1) by lia. assumption. }
    destruct (Z.ltb_spec m2 (2 ^ 24)).
    + exists m2, t. repeat split; lia.
    + exists (2 ^ 23), (t + 1). repeat split; lia.
Qed.

Lemma div_eucl_div (a b q r : Z) : Z.div_eucl a b = (q, r) -> q = a / b.
Proof. intros H. unfold Z.div. rewrite H. reflexivity. Qed.

Lemma div_1000_large (M E : Z) :
  2 ^ 23 <= M < 2 ^ 24 -> -11 <= E ->
  exists M' E',
    0 < M' /\ -21 <= E' /\ F32.div (pack false M E) f_1000_0 = pack false M' E'.
Proof.
  intros HM HE. destruct M as [| m | m]; try lia.
  cbn [pack]. destruct (E <=? 104).
  2:{ exists 1, 105. repeat split; lia. }
  unfold F32.div, f_1000_0, SFdiv, SFdiv_core_binary.
  assert (Hd1 : Zdigits2 (Zpos m) = 24) by (apply Zdigits2_unique; lia).
  rewrite Hd1. change (Zdigits2 16384000) with 24. rewrite fexp32_eq.
  replace (Z.min (fexp32 (24 + E - (24 + -14))) (E - -14)) with (E - 10)
    by (unfold fexp32; lia).
  replace (E - -14 - (E - 10)) with 24 by lia.
  rewrite Z.shiftl_mul_pow2 by lia.
  destruct (Z.div_eucl (Zpos m * 2 ^ 24) 16384000) as [q r] eqn:Hq.
  apply div_eucl_div in Hq.
  assert (Hqlo : 2 ^ 23 <= q).
  { subst q. apply Z.div_le_lower_bound; [lia|].
    change (2 ^ 23) with 8388608 in *. change (2 ^ 24) with 16777216 in *. lia. }
  assert (Hqhi : q < 2 ^ 25).
  { subst q. apply Z.div_lt_upper_bound; [lia|].
    change (2 ^ 25) with 33554432. change (2 ^ 24) with 16777216 in *. lia. }
  cbn [xorb].
  destruct (binary_round_aux_norm false q (E - 10) (new_location 16384000 r)
              ltac:(change (2 ^ 23) with 8388608 in *; lia))
    as (m2 & Hb & _ & Hm1 & He1 & Heq).
  cbn zeta in *. rewrite Heq.
  assert (Hs : 0 <= shift_of q (E - 10) <= 1).
  { unfold shift_of, fexp32.
    pose proof (Zdigits2_lt_pow q 25 ltac:(lia)
                  ltac:(change (2 ^ 23) with 8388608 in *; lia)). lia. }
  assert (Hm1lo : 0 < q / 2 ^ shift_of q (E - 10)).
  { apply Z.div_str_pos. split; [apply Z.pow_pos_nonneg; lia|].
    apply Z.le_trans with (2 ^ 1); [apply Z.pow_le_mono_r; lia|].
    change (2 ^ 23) with 8388608 in *. change (2 ^ 1) with 2. lia. }
  destruct (m2 <? 2 ^ 24).
  - eexists _, _. split; [|split; [|reflexivity]]; lia.
  - eexists _, _. split; [|split; [|reflexivity]]; [reflexivity | lia].
Qed.

Lemma gtb_pack_3 (M E : Z) :
  0 < M -> -21 <= E -> F32.gtb (pack false M E) f_3_0 = true.
Proof.
  intros HM HE. destruct M as [| m | m]; try lia. cbn [pack].
  destruct (E <=? 104); [|reflexivity].
  unfold F32.gtb, f_3_0, SFltb, SFcompare.
  destruct (Z.compare_spec (-22) E); [lia | reflexivity | lia].
Qed.

Lemma quotient_ms_small :
  forallb (fun k => negb (F32.gtb (quotient_ms (Z.of_nat k)) f_3_0))
          (seq 0 3001) = true.
Proof. vm_compute. reflexivity. Qed.

Lemma quotient_ms_mid :
  forallb (fun k => F32.gtb (quotient_ms (Z.of_nat k)) f_3_0)
          (seq 3001 1095) = true.
Proof. vm_compute. reflexivity. Qed.

Lemma quotient_ms_le_3 (ms : Z) :
  0 <= ms <= 3000 -> F32.gtb (quotient_ms ms) f_3_0 = false.
Proof.
  intros Hms. pose proof quotient_ms_small as H.
  rewrite forallb_forall in H.
  specialize (H (Z.to_nat ms)). rewrite Z2Nat.id in H by lia.
  apply negb_true_iff, H, in_seq. lia.
Qed.

Lemma quotient_ms_gt_3 (ms : Z) :
  3001 <= ms -> F32.gtb (quotient_ms ms) f_3_0 = true.
Proof.
  intros Hms. destruct (Z_lt_le_dec ms 4096) as [Hlt | Hge].
  - pose proof quotient_ms_mid as H.
    rewrite forallb_forall in H.
    specialize (H (Z.to_nat ms)). rewrite Z2Nat.id in H by lia.
    apply H, in_seq. lia.
  - destruct (of_Z_large ms Hge) as (M & E & HM & HE & Hof).
    destruct (div_1000_large M E HM HE) as (M' & E' & HM' & HE' & Hdiv).
    unfold quotient_ms. rewrite Hof, Hdiv. apply gtb_pack_3; assumption.
Qed.

Lemma ltb_leb (a b : float) : F32.ltb a b = true -> F32.leb a b = true.
Proof.
  unfold F32.ltb, F32.leb, SFltb, SFleb.
  destruct (SFcompare a b) as [[| |]|]; intros H; try discriminate; reflexivity.
Qed.

Lemma ltb_finite_pos (m : positive) (e : Z) (r : float) :
  F32.ltb (S754_finite false m e) r = true ->
  F32.leb (S754_zero false) r = true.
Proof.
  destruct r as [s | [|] | | [|] mr er]; cbn; intros H;
    try discriminate; reflexivity.
Qed.

Lemma leb_raise_exponent (r : float) (m1 : positive) (e1 : Z) (m2 : positive)
    (e2 : Z) :
  e1 < e2 ->
  F32.leb r (S754_finite false m1 e1) = true ->
  F32.leb r (S754_finite false m2 e2) = true.
Proof.
  intros He. unfold F32.leb, SFleb, SFcompare.
  destruct r as [s | [|] | | [|] mr er]; try (intros; reflexivity);
    try (intros; discriminate).
  destruct (Z.compare_spec er e1) as [-> | Hlt | Hgt]; intros H.
  - destruct (Z.compare_spec e1 e2); [lia | reflexivity | lia].
  - destruct (Z.compare_spec er e2); [lia | reflexivity | lia].
  - discriminate.
Qed.

Lemma nonneg_leb_zero (q : float) :
  nonneg_or_nan q = true -> q <> S754_nan ->
  F32.leb (S754_zero false) q = true.
Proof.
  destruct q as [s | [|] | | [|] m e]; cbn; intros H Hn;
    try discriminate; try reflexivity. congruence.
Qed.

Lemma ltb_not_nan_l (a b : float) : F32.ltb a b = true -> a <> S754_nan.
Proof. intros H ->. discriminate. Qed.

Lemma ltb_not_nan_r (a b : float) : F32.ltb a b = true -> b <> S754_nan.
Proof. intros H ->. destruct a; discriminate. Qed.

Lemma div_nonneg (thr pulse : float) :
  F32.ltb thr f_0_0 = false -> F32.gtb pulse f_0_0 = true ->
  nonneg_or_nan (F32.div thr pulse) = true.
Proof.
  unfold F32.div, SFdiv.
  destruct pulse as [sp | [|] | | [|] mp ep]; cbn; intros Ht Hp;
    try discriminate;
    destruct thr as [st | [|] | | [|] mt et]; try discriminate; try reflexivity.
  cbn [xorb].
  destruct (SFdiv_core_binary F32.prec F32.emax (Zpos mt) et (Zpos mp) ep)
    as [[mz ez] lz] eqn:Hc.
  assert (Hmz : 0 <= mz).
  { unfold SFdiv_core_binary in Hc.
    destruct (Z.div_eucl _ _) as [q r] eqn:Hq in Hc.
    injection Hc as <- _ _. apply div_eucl_div in Hq. subst q.
    apply Z.div_pos; [|lia].
    destruct (et - ep - _) as [| s | s]; [lia | | lia].
    apply Z.shiftl_nonneg. lia. }
  destruct (binary_round_aux_pack false mz ez lz Hmz) as (M & E & _ & ->).
  apply pack_nonneg.
Qed.

Lemma of_Z_nonneg (z : Z) :
  0 <= z -> F32.leb F32.zero (F32.of_Z z) = true.
Proof.
  intros Hz. destruct z as [| p | p]; [reflexivity | | lia].
  unfold F32.of_Z. cbn [binary_normalize].
  destruct (binary_round_pack false p 0) as (M & E & HM & ->).
  apply leb_zero_pack. assumption.
Qed.

Lemma float_of_size_nonneg (n : nat) :
  F32.leb f_0_0 (float_of_size n) = true.
Proof. apply of_Z_nonneg. lia. Qed.

(** Below 2^24 the conversion of an integer loses nothing. *)
Lemma of_Z_exact (z : Z) :
  0 <= z < 2 ^ 24 -> F32.to_Z (F32.of_Z z) = z.
Proof.
  intros Hz. destruct z as [| p | p]; [reflexivity | | lia].
  unfold F32.of_Z. cbn [binary_normalize].
  pose proof (Zdigits2_lt_pow (Zpos p) 24 ltac:(lia) Hz) as Hd.
  pose proof (Zdigits2_pos (Zpos p) ltac:(lia)) as Hd0.
  set (t := fexp32 (Zdigits2 (Zpos p) + 0)).
  assert (Ht : t = Zdigits2 (Zpos p) - 24) by (unfold t, fexp32; lia).
  destruct (binary_round_exact false p 0 ltac:(fold t; lia)) as (HM & _ & Heq).
  fold t in HM, Heq. rewrite Heq.
  assert (Hp : 0 < 2 ^ (0 - t)) by (apply Z.pow_pos_nonneg; lia).
  destruct (Zpos p * 2 ^ (0 - t)) as [| M | M] eqn:HMeq; [lia | | lia].
  cbn [pack]. destruct (Z.leb_spec t 104) as [_ | ?]; [|lia].
  cbn [F32.to_Z cond_Zopp].
  destruct t as [| q | q] eqn:Htq.
  - change (2 ^ (0 - 0)) with 1 in HMeq. lia.
  - lia.
  - rewrite <- HMeq. change (0 - Zneg q) with (- Zneg q).
    apply Z.div_mul. lia.
Qed.

End Rounding.

(** ** The blink rate estimator *)

Section Estimator.

Lemma evict_filter_above (c c' : time_point) (q : list time_point) :
  c <= c' ->
  filter (fun t => c' <=? t) (evict c q) = filter (fun t => c' <=? t) q.
Proof.
  intros Hc. induction q as [| x q IH]; [reflexivity|].
  cbn [evict]. destruct (Z.ltb_spec x c) as [Hlt | Hge]; [|reflexivity].
  rewrite IH. cbn [filter].
  destruct (Z.leb_spec c' x); [lia | reflexivity].
Qed.

Lemma evict_sorted (c : time_point) (q : list time_point) :
  StronglySorted Z.le q -> evict c q = filter (fun t => c <=? t) q.
Proof.
  induction 1 as [| x q Hs IH Hall]; [reflexivity|].
  cbn [evict filter]. destruct (Z.ltb_spec x c) as [Hlt | Hge].
  - destruct (Z.leb_spec c x); [lia | exact IH].
  - destruct (Z.leb_spec c x); [|lia]. f_equal.
    symmetry. apply forallb_filter_id.
    rewrite forallb_forall. intros y Hy.
    rewrite Forall_forall in Hall. specialize (Hall y Hy).
    apply Z.leb_le. lia.
Qed.

Lemma evict_suffix_sorted (c : time_point) (q r : list time_point) :
  StronglySorted Z.le (q ++ r) -> StronglySorted Z.le (evict c q ++ r).
Proof.
  induction q as [| x q IH]; intros Hs; [exact Hs|].
  cbn [evict]. destruct (x <? c); [|exact Hs].
  apply IH. cbn [app] in Hs. inversion Hs; assumption.
Qed.

Lemma sorted_drop_middle (q r : list time_point) (t : time_point) :
  StronglySorted Z.le (q ++ t :: r) -> StronglySorted Z.le (q ++ r).
Proof.
  induction q as [| x q IH]; cbn [app]; intros Hs.
  - inversion Hs; assumption.
  - inversion Hs as [| y l Hl Hall]; subst. constructor; [apply IH, Hl|].
    rewrite Forall_app in *. destruct Hall as [H1 H2].
    split; [assumption|]. inversion H2; assumption.
Qed.

Lemma sorted_before_last (q : list time_point) (t : time_point) :
  StronglySorted Z.le (q ++ [t]) -> Forall (fun x => x <= t) q.
Proof.
  induction q as [| x q IH]; cbn [app]; intros Hs; [constructor|].
  inversion Hs as [| y l Hl Hall]; subst. constructor; [|apply IH, Hl].
  rewrite Forall_app in Hall. destruct Hall as [_ H2].
  inversion H2; assumption.
Qed.

Lemma sorted_app_left (q r : list time_point) :
  StronglySorted Z.le (q ++ r) -> StronglySorted Z.le q.
Proof.
  induction q as [| x q IH]; cbn [app]; intros Hs; [constructor|].
  inversion Hs as [| y l Hl Hall]; subst. constructor; [apply IH, Hl|].
  rewrite Forall_app in Hall. tauto.
Qed.

Lemma estimate_deque (now : time_point) (b : bool) (st : BlinkEstimator) :
  blink_timestamps (fst (estimate_blink_rate now b st))
  = evict (now - seconds 60)
      (pushed now b (prev_blink_state st) (blink_timestamps st))
  /\ prev_blink_state (fst (estimate_blink_rate now b st)) = b
  /\ snd (estimate_blink_rate now b st)
     = float_of_size (length (evict (now - seconds 60)
         (pushed now b (prev_blink_state st) (blink_timestamps st)))).
Proof. unfold estimate_blink_rate, pushed. repeat split. Qed.

Lemma run_estimator_cons (now : time_point) (b : bool)
    (rest : list (time_point * bool)) (st : BlinkEstimator) :
  fst (run_estimator ((now, b) :: rest) st)
  = fst (run_estimator rest (fst (estimate_blink_rate now b st))).
Proof.
  cbn [run_estimator]. destruct (estimate_blink_rate now b st) as [st1 r].
  cbn [fst]. destruct (run_estimator rest st1) as [st2 rs]. reflexivity.
Qed.

Lemma run_deque_sorted (calls : list (time_point * bool)) (st : BlinkEstimator)
    (future : list time_point) :
  StronglySorted Z.le (blink_timestamps st ++ map fst calls ++ future) ->
  StronglySorted Z.le
    (blink_timestamps (fst (run_estimator calls st)) ++ future).
Proof.
  revert st. induction calls as [| [t b] rest IH]; intros st Hs.
  - exact Hs.
  - rewrite run_estimator_cons. apply IH.
    destruct (estimate_deque t b st) as (-> & _ & _).
    apply evict_suffix_sorted. unfold pushed.
    cbn [map fst app] in Hs.
    destruct (b && negb (prev_blink_state st)).
    + rewrite <- app_assoc. exact Hs.
    + apply sorted_drop_middle with t. exact Hs.
Qed.

Lemma run_prev (calls : list (time_point * bool)) (st : BlinkEstimator) :
  prev_blink_state (fst (run_estimator calls st))
  = last_flag (prev_blink_state st) calls.
Proof.
  revert st. induction calls as [| [t b] rest IH]; intros st; [reflexivity|].
  rewrite run_estimator_cons, IH.
  destruct (estimate_deque t b st) as (_ & -> & _).
  unfold last_flag. destruct rest as [| c rest]; [reflexivity|].
  cbn [last]. clear. revert c.
  induction rest as [| c' rest IH]; intros c; [reflexivity|].
  cbn [last] in *. apply IH.
Qed.

Lemma run_filter (calls : list (time_point * bool)) (st : BlinkEstimator)
    (c : time_point) :
  Forall (fun cl => fst cl - seconds 60 <= c) calls ->
  filter (fun t => c <=? t) (blink_timestamps (fst (run_estimator calls st)))
  = filter (fun t => c <=? t)
      (blink_timestamps st ++ onsets (prev_blink_state st) calls).
Proof.
  revert st. induction calls as [| [t b] rest IH]; intros st Hall.
  - cbn [run_estimator fst onsets]. rewrite app_nil_r. reflexivity.
  - inversion Hall as [| x l Ht Hrest]; subst. cbn [fst] in Ht.
    rewrite run_estimator_cons, (IH _ Hrest).
    destruct (estimate_deque t b st) as (-> & -> & _).
    rewrite !filter_app, (evict_filter_above _ _ _ Ht).
    unfold pushed. cbn [onsets].
    destruct (b && negb (prev_blink_state st)).
    + rewrite filter_app, <- app_assoc.
      change (t :: onsets b rest) with ([t] ++ onsets b rest).
      rewrite filter_app. reflexivity.
    + reflexivity.
Qed.

Lemma onsets_snoc (prev : bool) (calls : list (time_point * bool))
    (now : time_point) (b : bool) :
  onsets prev (calls ++ [(now, b)])
  = pushed now b (last_flag prev calls) (onsets prev calls).
Proof.
  revert prev. induction calls as [| [t f] rest IH]; intros prev.
  - unfold pushed, last_flag. cbn [app onsets last snd].
    destruct (b && negb prev); reflexivity.
  - cbn [app onsets]. rewrite IH.
    assert (Hl : last_flag prev ((t, f) :: rest) = last_flag f rest).
    { unfold last_flag. destruct rest as [| c rest]; [reflexivity|].
      cbn [last]. clear. revert c.
      induction rest as [| c' rest IH]; intros c; [reflexivity|].
      cbn [last] in *. apply IH. }
    rewrite Hl. unfold pushed.
    destruct (f && negb prev), (b && negb (last_flag f rest)); reflexivity.
Qed.

Lemma onsets_times (prev : bool) (calls : list (time_point * bool))
    (P : time_point -> Prop) :
  Forall P (map fst calls) -> Forall P (onsets prev calls).
Proof.
  revert prev. induction calls as [| [t b] rest IH]; intros prev Hall;
    [constructor|].
  inversion Hall; subst. cbn [onsets].
  destruct (b && negb prev); [constructor; [assumption|]|]; apply IH; assumption.
Qed.

Lemma filter_window (now : time_point) (l : list time_point) :
  Forall (fun t => t <= now) l ->
  filter (in_window now) l = filter (fun t => now - seconds 60 <=? t) l.
Proof.
  intros Hall. apply filter_ext_in. intros t Ht.
  rewrite Forall_forall in Hall. specialize (Hall t Ht).
  unfold in_window. destruct (Z.leb_spec t now); [|lia].
  apply andb_true_r.
Qed.

Lemma rate_after_count (calls : list (time_point * bool))
    (now : time_point) (b : bool) :
  Sorted Z.le (map fst (calls ++ [(now, b)])) ->
  rate_after calls now b
  = float_of_size (onsets_in_window now (calls ++ [(now, b)])).
Proof.
  intros Hsorted. unfold rate_after.
  apply Sorted_StronglySorted in Hsorted; [|exact Z.le_trans].
  rewrite map_app in Hsorted. cbn [map fst] in Hsorted.
  set (st := fst (run_estimator calls BlinkEstimator_init)).
  destruct (estimate_deque now b st) as (_ & _ & ->).
  f_equal. f_equal. unfold onsets_in_window.
  assert (Hq : StronglySorted Z.le (blink_timestamps st ++ [now])).
  { apply run_deque_sorted. exact Hsorted. }
  assert (Hle : Forall (fun t => t <= now) (map fst calls))
    by (apply sorted_before_last; exact Hsorted).
  rewrite evict_sorted.
  2:{ unfold pushed. destruct (b && negb _); [exact Hq|].
      apply sorted_app_left with [now]. exact Hq. }
  rewrite onsets_snoc, filter_window.
  2:{ unfold pushed. destruct (b && negb _).
      - apply Forall_app. split; [apply onsets_times; exact Hle|].
        constructor; [lia | constructor].
      - apply onsets_times; exact Hle. }
  unfold st. rewrite run_prev. cbn [BlinkEstimator_init prev_blink_state].
  unfold pushed.
  assert (Hf : filter (fun t => now - seconds 60 <=? t)
                 (blink_timestamps (fst (run_estimator calls BlinkEstimator_init)))
               = filter (fun t => now - seconds 60 <=? t) (onsets false calls)).
  { rewrite run_filter; [reflexivity|].
    rewrite Forall_forall. intros cl Hcl.
    rewrite Forall_forall in Hle. specialize (Hle (fst cl) (in_map fst _ _ Hcl)).
    lia. }
  destruct (b && negb (last_flag false calls)).
  - rewrite !filter_app, !length_app. f_equal.
    exact (f_equal (@length _) Hf).
  - exact (f_equal (@length _) Hf).
Qed.

(** C6: under the monotonic clock, the rate a call returns is the number of
    blink onsets (calls with the flag set right after a call without it, so
    that a held blink counts once) of the whole sequence whose time lies in
    the 60 seconds that end at the call, converted to [float]; it is never
    negative, it is +0 when the window holds no onset, and below 2^24 onsets
    the conversion is exact. *)
Theorem blink_rate_counts_onsets (calls : list (time_point * bool))
    (now : time_point) (b : bool) :
  Sorted Z.le (map fst (calls ++ [(now, b)])) ->
  rate_after calls now b
  = float_of_size (onsets_in_window now (calls ++ [(now, b)]))
  /\ F32.leb f_0_0 (rate_after calls now b) = true
  /\ (onsets_in_window now (calls ++ [(now, b)]) = 0%nat ->
      rate_after calls now b = f_0_0)
  /\ (Z.of_nat (onsets_in_window now (calls ++ [(now, b)])) < 2 ^ 24 ->
      F32.to_Z (rate_after calls now b)
      = Z.of_nat (onsets_in_window now (calls ++ [(now, b)]))).
Proof.
  intros Hsorted.
  pose proof (rate_after_count calls now b Hsorted) as Hrate.
  rewrite Hrate. split; [reflexivity|]. split; [|split].
  - apply float_of_size_nonneg.
  - intros ->. reflexivity.
  - intros Hlt. apply of_Z_exact. lia.
Qed.

Lemma blink_rate_counts_onsets_witness :
  rate_after two_blinks (seconds 70) false
  = float_of_size (onsets_in_window (seconds 70)
                     (two_blinks ++ [(seconds 70, false)]))
  /\ F32.leb f_0_0 (rate_after two_blinks (seconds 70) false) = true
  /\ (onsets_in_window (seconds 70) (two_blinks ++ [(seconds 70, false)])
      = 0%nat ->
      rate_after two_blinks (seconds 70) false = f_0_0)
  /\ (Z.of_nat (onsets_in_window (seconds 70)
                  (two_blinks ++ [(seconds 70, false)])) < 2 ^ 24 ->
      F32.to_Z (rate_after two_blinks (seconds 70) false)
      = Z.of_nat (onsets_in_window (seconds 70)
                    (two_blinks ++ [(seconds 70, false)]))).
Proof.
  apply (blink_rate_counts_onsets two_blinks (seconds 70) false).
  repeat constructor; vm_compute; discriminate.
Defined.

(** The two onsets of [two_blinks] are counted once each while both are in
    the window, and the first has aged out 70 seconds after it. *)
Example two_blinks_rates :
  snd (run_estimator two_blinks BlinkEstimator_init)
  = [F32.of_Z 1; F32.of_Z 1; F32.of_Z 1; F32.of_Z 2]
  /\ rate_after two_blinks (seconds 70) false = F32.of_Z 1.
Proof. vm_compute. split; reflexivity. Qed.

End Estimator.

(** ** The metrics collector *)

Section CollectorFacts.

Lemma compare_antisym (a b : float) (c : comparison) :
  SFcompare a b = Some c -> SFcompare b a = Some (CompOpp c).
Proof.
  destruct a as [sa | sa | | sa ma ea], b as [sb | sb | | sb mb eb];
    cbn [SFcompare]; intros H; try discriminate;
    try (injection H as <-);
    try (destruct sa; reflexivity); try (destruct sb; reflexivity);
    try (destruct sa, sb; reflexivity).
  rewrite (Z.compare_antisym ea eb).
  change (Pos.compare_cont Eq mb ma) with (Pos.compare mb ma).
  change (Pos.compare_cont Eq ma mb) with (Pos.compare ma mb).
  rewrite (Pos.compare_antisym ma mb).
  destruct sa, sb, (ea ?= eb), (ma ?= mb)%positive; reflexivity.
Qed.

Lemma leb_not_gtb (a b : float) : F32.leb a b = true -> F32.gtb a b = false.
Proof.
  unfold F32.leb, F32.gtb, SFleb, SFltb.
  destruct (SFcompare a b) as [c|] eqn:Hc; [|discriminate].
  rewrite (compare_antisym a b c Hc). destruct c; [reflexivity.. | discriminate].
Qed.

Lemma update_blink_gaze now f c :
  has_gaze (current (update_blink now f c)) = has_gaze (current c)
  /\ gaze_x (current (update_blink now f c)) = gaze_x (current c)
  /\ gaze_y (current (update_blink now f c)) = gaze_y (current c).
Proof.
  unfold update_blink. destruct (negb _); [|repeat split].
  destruct (estimate_blink_rate _ _ _). repeat split.
Qed.

Lemma update_talking_gaze f c :
  has_gaze (current (update_talking f c)) = has_gaze (current c)
  /\ gaze_x (current (update_talking f c)) = gaze_x (current c)
  /\ gaze_y (current (update_talking f c)) = gaze_y (current c).
Proof.
  unfold update_talking. destruct (negb _); repeat split.
Qed.

Lemma update_gaze_blocked (f : Sdk.Face) (c : Collector) :
  let lm := Sdk.rbegin (Sdk.landmarks f) Sdk.Landmarks_default in
  (Sdk.value_size lm <? 468) || F32.leb (derived_width lm) f_1_0
  || F32.leb (derived_height lm) f_1_0 = true ->
  update_gaze f c = c.
Proof.
  intros lm H. unfold update_gaze. fold lm.
  destruct (negb (Sdk.empty (Sdk.landmarks f))); [|reflexivity].
  destruct (Z.leb_spec 468 (Sdk.value_size lm)) as [Hge | Hlt]; [|reflexivity].
  destruct (Z.ltb_spec (Sdk.value_size lm) 468) as [? | _]; [lia|].
  cbn [orb] in H. fold (derived_width lm) (derived_height lm).
  apply orb_true_iff in H. destruct H as [H | H]; apply leb_not_gtb in H.
  - rewrite H. reflexivity.
  - rewrite H, andb_false_r. reflexivity.
Qed.

(** The gaze block either leaves the collector as it was or sets
    [has_gaze]. *)
Lemma update_gaze_cases (f : Sdk.Face) (c : Collector) :
  update_gaze f c = c \/ has_gaze (current (update_gaze f c)) = true.
Proof.
  unfold update_gaze.
  destruct (negb (Sdk.empty (Sdk.landmarks f))); [|left; reflexivity].
  destruct (468 <=? _); [|left; reflexivity].
  destruct (F32.gtb _ f_1_0 && F32.gtb _ f_1_0);
    [right; reflexivity | left; reflexivity].
Qed.

(** C1, as the code has it: a frame with a face whose gaze computation
    cannot proceed (fewer than 468 points in the latest landmark set, or a
    derived width or height of at most 1.0) computes no gaze vector and
    leaves [has_gaze], [gaze_x] and [gaze_y] as they were before the call;
    gaze is reported unavailable exactly when it was unavailable before.
    Every frame with a face, blocked or not (a NaN width or height
    included), either sets [has_gaze] or leaves [has_gaze], [gaze_x] and
    [gaze_y] as they were, so it never clears a [has_gaze] that was set;
    a frame without a face always clears it.  Hence a set [has_gaze] is
    cleared by a call exactly when the frame has no face. *)
Theorem blocked_gaze_is_kept (now : time_point) (metrics : Sdk.Metrics)
    (c : Collector) :
  (gaze_blocked metrics = true ->
   has_gaze (current (process_edge_metrics now metrics c))
   = has_gaze (current c)
   /\ gaze_x (current (process_edge_metrics now metrics c))
      = gaze_x (current c)
   /\ gaze_y (current (process_edge_metrics now metrics c))
      = gaze_y (current c)
   /\ face_detected (current (process_edge_metrics now metrics c)) = true)
  /\ (Sdk.has_face metrics = true ->
      has_gaze (current (process_edge_metrics now metrics c)) = true
      \/ (has_gaze (current (process_edge_metrics now metrics c))
          = has_gaze (current c)
          /\ gaze_x (current (process_edge_metrics now metrics c))
             = gaze_x (current c)
          /\ gaze_y (current (process_edge_metrics now metrics c))
             = gaze_y (current c)))
  /\ (Sdk.has_face metrics = false ->
      has_gaze (current (process_edge_metrics now metrics c)) = false)
  /\ (has_gaze (current c) = true ->
      (has_gaze (current (process_edge_metrics now metrics c)) = false
       <-> Sdk.has_face metrics = false)).
Proof.
  assert (Hkeep :
    has_gaze (current (update_talking (Sdk.face metrics)
      (update_blink now (Sdk.face metrics)
         (update (set_face_detected true) c)))) = has_gaze (current c)
    /\ gaze_x (current (update_talking (Sdk.face metrics)
      (update_blink now (Sdk.face metrics)
         (update (set_face_detected true) c)))) = gaze_x (current c)
    /\ gaze_y (current (update_talking (Sdk.face metrics)
      (update_blink now (Sdk.face metrics)
         (update (set_face_detected true) c)))) = gaze_y (current c)).
  { destruct (update_talking_gaze (Sdk.face metrics)
      (update_blink now (Sdk.face metrics)
         (update (set_face_detected true) c))) as (-> & -> & ->).
    destruct (update_blink_gaze now (Sdk.face metrics)
      (update (set_face_detected true) c)) as (-> & -> & ->).
    repeat split. }
  assert (Hface : Sdk.has_face metrics = true ->
    has_gaze (current (process_edge_metrics now metrics c)) = true
    \/ (has_gaze (current (process_edge_metrics now metrics c))
        = has_gaze (current c)
        /\ gaze_x (current (process_edge_metrics now metrics c))
           = gaze_x (current c)
        /\ gaze_y (current (process_edge_metrics now metrics c))
           = gaze_y (current c))).
  { intros Hf. unfold process_edge_metrics. rewrite Hf.
    destruct (update_gaze_cases (Sdk.face metrics)
      (update_talking (Sdk.face metrics)
        (update_blink now (Sdk.face metrics)
           (update (set_face_detected true) c)))) as [-> | Hset].
    - right. exact Hkeep.
    - left. exact Hset. }
  assert (Hnone : Sdk.has_face metrics = false ->
    has_gaze (current (process_edge_metrics now metrics c)) = false).
  { intros Hf. unfold process_edge_metrics. rewrite Hf. reflexivity. }
  split; [|split; [exact Hface | split; [exact Hnone|]]].
  - unfold gaze_blocked, latest_landmarks. intros H.
    apply andb_true_iff in H. destruct H as [Hf Hb].
    unfold process_edge_metrics. rewrite Hf.
    rewrite (update_gaze_blocked _ _ Hb).
    destruct Hkeep as (-> & -> & ->).
    repeat split.
    unfold update_talking, update_blink.
    destruct (negb (Sdk.empty (Sdk.talking _))),
      (negb (Sdk.empty (Sdk.blinking _)));
      try destruct (estimate_blink_rate _ _ _); reflexivity.
  - intros Hset. split.
    + intros Hclear. destruct (Sdk.has_face metrics); [|reflexivity].
      destruct (Hface eq_refl) as [H | (H & _)]; congruence.
    + exact Hnone.
Qed.

(** After a frame with a full mesh: a second frame with a face and only
    100 points keeps the flag and the vector, and the flag, being set, can
    only be cleared by a frame without a face. *)
Lemma blocked_gaze_is_kept_witness :
  gaze_blocked (frame [mesh 100]) = true
  /\ has_gaze (current after_full_mesh) = true
  /\ has_gaze (current (process_edge_metrics 1 (frame [mesh 100])
                          after_full_mesh)) = true
  /\ gaze_x (current (process_edge_metrics 1 (frame [mesh 100])
                        after_full_mesh)) = f_0_5
  /\ face_detected (current (process_edge_metrics 1 (frame [mesh 100])
                               after_full_mesh)) = true
  /\ (has_gaze (current (process_edge_metrics 1 (frame [mesh 100])
                           after_full_mesh)) = false
      <-> Sdk.has_face (frame [mesh 100]) = false).
Proof.
  destruct (blocked_gaze_is_kept 1 (frame [mesh 100]) after_full_mesh)
    as (Hblocked & _ & _ & Honly).
  assert (Hb : gaze_blocked (frame [mesh 100]) = true)
    by (vm_compute; reflexivity).
  assert (Hs : has_gaze (current after_full_mesh) = true)
    by (vm_compute; reflexivity).
  destruct (Hblocked Hb) as (Hg & Hx & _ & Hfd).
  split; [exact Hb|]. split; [exact Hs|].
  split; [rewrite Hg; exact Hs|].
  split; [rewrite Hx; vm_compute; reflexivity|].
  split; [exact Hfd|].
  exact (Honly Hs).
Defined.

(** The first frame carries a full mesh and yields the gaze (0.5, 1/15). *)
Example full_mesh_gaze :
  has_gaze (current after_full_mesh) = true
  /\ gaze_x (current after_full_mesh) = f_0_5
  /\ gaze_y (current after_full_mesh) = F32.div (F32.of_Z 10) (F32.of_Z 150).
Proof. vm_compute. repeat split. Qed.

(** C1 fails as stated: after a frame with a full mesh, a frame with a face
    and a latest landmark set of 100 points leaves [has_gaze] set. *)
Lemma stale_gaze_after_short_mesh :
  Sdk.has_face (frame [mesh 100]) = true
  /\ Sdk.value_size (latest_landmarks (frame [mesh 100])) < 468
  /\ has_gaze (current (process_edge_metrics 1 (frame [mesh 100])
                          after_full_mesh)) = true.
Proof. vm_compute. repeat split. Qed.

(** The same with 468 coinciding points, whose derived width and height
    are 0. *)
Example stale_gaze_after_flat_mesh :
  F32.leb (derived_width flat_mesh) f_1_0 = true
  /\ F32.leb (derived_height flat_mesh) f_1_0 = true
  /\ has_gaze (current (process_edge_metrics 1 (frame [flat_mesh])
                          after_full_mesh)) = true.
Proof. vm_compute. repeat split. Qed.

(** A face frame whose 468 points are NaN is neither blocked in the sense
    of the statement nor computed: the flag and the vector stay as they
    were, unset from the initial collector and set after a full mesh. *)
Example nan_mesh_keeps_gaze :
  gaze_blocked (frame [nan_mesh]) = false
  /\ has_gaze (current (process_edge_metrics 1 (frame [nan_mesh])
                          Collector_init)) = false
  /\ has_gaze (current (process_edge_metrics 1 (frame [nan_mesh])
                          after_full_mesh)) = true
  /\ gaze_x (current (process_edge_metrics 1 (frame [nan_mesh])
                        after_full_mesh)) = f_0_5.
Proof. vm_compute. repeat split. Qed.

(** Without a face the flag is cleared, whatever it was. *)
Lemma no_face_clears_gaze (now : time_point) (metrics : Sdk.Metrics)
    (c : Collector) :
  Sdk.has_face metrics = false ->
  has_gaze (current (process_edge_metrics now metrics c)) = false
  /\ face_detected (current (process_edge_metrics now metrics c)) = false.
Proof.
  intros H. unfold process_edge_metrics. rewrite H. split; reflexivity.
Qed.

End CollectorFacts.

(** ** The focus analyzer *)

Section AnalyzerFacts.

Example scenario_no_update :
  verdict (analyze (seconds 5) FocusMetrics_init fresh) = (UNKNOWN, f_0_5).
Proof. reflexivity. Qed.

Example scenario_talking :
  verdict (analyze 0 (set_is_talking true face_only) fresh)
    = (TALKING, f_0_3).
Proof. reflexivity. Qed.

Example scenario_distracted :
  verdict (analyze 0 (set_gaze f_0_5 f_0_0 face_only) fresh)
    = (DISTRACTED, F32.sub f_0_6 (F32.mul f_0_5 f_0_3)).
Proof. vm_compute. reflexivity. Qed.

Example scenario_stressed :
  verdict (analyze 0
    (set_breathing (F32.of_Z 25) f_0_0
      (set_pulse (F32.of_Z 110) f_0_0 face_only)) fresh)
    = (STRESSED, f_0_25).
Proof. vm_compute. reflexivity. Qed.

Example scenario_focused :
  verdict (analyze 0 (set_pulse (F32.of_Z 80) f_0_0 face_only) fresh)
    = (FOCUSED, f_1_0).
Proof. vm_compute. reflexivity. Qed.

(** Unfold one call of [analyze] down to its tests, leaving the float
    operations folded. *)
Ltac open_analyze :=
  unfold verdict, analyze, is_unknown;
  cbn [fst snd state focus_score snapshot FocusState_eqb andb negb orb
       thresholds_ current_state_ last_face_seen_ ever_seen_face_].

Lemma state_verdict (r : FocusAnalyzer * Analysis) :
  state (snd r) = fst (verdict r).
Proof. reflexivity. Qed.

Lemma score_verdict (r : FocusAnalyzer * Analysis) :
  focus_score (snd r) = snd (verdict r).
Proof. reflexivity. Qed.

(** The state chosen for a snapshot with a face depends on the four rule
    conditions only. *)
Lemma analyze_face_state (now : time_point) (m : FocusMetrics)
    (a : FocusAnalyzer) :
  face_detected m = true ->
  verdict (analyze now m a) =
    if is_talking m then (TALKING, f_0_3)
    else if has_gaze m
            && F32.gtb (gaze_mag m) (gaze_distraction_threshold (thresholds_ a))
    then (DISTRACTED, distracted_score m)
    else if drowsy_condition (thresholds_ a) m then (DROWSY, f_0_15)
    else if elevated_pulse (thresholds_ a) m && fast_breathing (thresholds_ a) m
    then (STRESSED, f_0_25)
    else (FOCUSED, vitals_score (thresholds_ a) m).
Proof.
  intros Hface. open_analyze. rewrite Hface.
  cbn [andb negb].
  destruct (is_talking m); cbn [fst snd FocusState_eqb andb]; [reflexivity|].
  destruct (has_gaze m); cbn [andb].
  - destruct (F32.gtb (gaze_mag m) _); cbn [fst snd FocusState_eqb andb];
      [reflexivity|].
    destruct (drowsy_condition _ m); cbn [fst snd FocusState_eqb andb];
      [reflexivity|].
    destruct (elevated_pulse _ m && fast_breathing _ m);
      cbn [fst snd FocusState_eqb andb]; reflexivity.
  - destruct (drowsy_condition _ m); cbn [fst snd FocusState_eqb andb];
      [reflexivity|].
    destruct (elevated_pulse _ m && fast_breathing _ m);
      cbn [fst snd FocusState_eqb andb]; reflexivity.
Qed.

(** The state chosen for a snapshot without a face. *)
Lemma analyze_noface_state (now : time_point) (m : FocusMetrics)
    (a : FocusAnalyzer) :
  face_detected m = false ->
  verdict (analyze now m a) =
    if ever_seen_face_ a
       && F32.gtb (absence_duration now (last_face_seen_ a))
                  (face_absence_timeout_s (thresholds_ a))
    then (AWAY, f_0_0) else (UNKNOWN, f_0_5).
Proof.
  intros Hface. open_analyze. rewrite Hface. cbn [andb negb].
  destruct (ever_seen_face_ a); cbn [andb fst snd FocusState_eqb].
  - destruct (F32.gtb _ _); cbn [andb fst snd FocusState_eqb]; reflexivity.
  - reflexivity.
Qed.

(** What a call leaves in the face-absence tracker. *)
Lemma analyze_tracker (now : time_point) (m : FocusMetrics)
    (a : FocusAnalyzer) :
  let a' := fst (analyze now m a) in
  thresholds_ a' = thresholds_ a
  /\ ever_seen_face_ a' = (face_detected m || ever_seen_face_ a)
  /\ last_face_seen_ a' =
       (if face_detected m then now else last_face_seen_ a)
  /\ current_state_ a' = state (snd (analyze now m a)).
Proof.
  unfold analyze; cbn [fst snd thresholds_ ever_seen_face_ last_face_seen_
                       current_state_ state].
  repeat split.
Qed.



(** C3: STRESSED is returned only when the pulse is present and above its
    threshold and the breathing rate is present and above its threshold;
    with a face present and the breathing absent or not above its
    threshold the result is not STRESSED, however high the pulse. *)
Theorem stressed_requires_both (now : time_point) (m : FocusMetrics)
    (a : FocusAnalyzer) :
  (state (snd (analyze now m a)) = STRESSED ->
     (has_pulse m = true
      /\ F32.gtb (pulse_rate_bpm m) (pulse_stressed_threshold (thresholds_ a))
         = true)
     /\ (has_breathing m = true
         /\ F32.gtb (breathing_rate_bpm m)
                    (breathing_stressed_threshold (thresholds_ a)) = true))
  /\ (face_detected m = true ->
      elevated_pulse (thresholds_ a) m = true ->
      has_breathing m = false
      \/ F32.gtb (breathing_rate_bpm m)
                 (breathing_stressed_threshold (thresholds_ a)) = false ->
      state (snd (analyze now m a)) <> STRESSED).
Proof.
  assert (Honly : state (snd (analyze now m a)) = STRESSED ->
                  elevated_pulse (thresholds_ a) m = true
                  /\ fast_breathing (thresholds_ a) m = true).
  { rewrite state_verdict. destruct (face_detected m) eqn:Hface.
    - rewrite (analyze_face_state now m a Hface).
      destruct (is_talking m); [discriminate|].
      destruct (has_gaze m && _); [discriminate|].
      destruct (drowsy_condition _ m); [discriminate|].
      destruct (elevated_pulse _ m); [|discriminate].
      destruct (fast_breathing _ m); [|discriminate].
      split; reflexivity.
    - rewrite (analyze_noface_state now m a Hface).
      destruct (ever_seen_face_ a && _); discriminate. }
  split.
  - intros Hs. destruct (Honly Hs) as [Hp Hb].
    unfold elevated_pulse in Hp. unfold fast_breathing in Hb.
    apply andb_true_iff in Hp. apply andb_true_iff in Hb.
    split; assumption.
  - intros _ _ Hbreath Hs. destruct (Honly Hs) as [_ Hb].
    unfold fast_breathing in Hb. apply andb_true_iff in Hb.
    destruct Hb as [Hb1 Hb2].
    destruct Hbreath as [Hn | Hn]; congruence.
Qed.

Lemma stressed_requires_both_witness :
  ((has_pulse (vitals 110 25) = true
    /\ F32.gtb (pulse_rate_bpm (vitals 110 25)) f_100_0 = true)
   /\ (has_breathing (vitals 110 25) = true
       /\ F32.gtb (breathing_rate_bpm (vitals 110 25)) f_22_0 = true))
  /\ state (snd (analyze 0 (vitals 110 18) fresh)) <> STRESSED.
Proof.
  split.
  - apply (proj1 (stressed_requires_both 0 (vitals 110 25) fresh)).
    vm_compute. reflexivity.
  - apply (proj2 (stressed_requires_both 0 (vitals 110 18) fresh)).
    + vm_compute. reflexivity.
    + vm_compute. reflexivity.
    + right. vm_compute. reflexivity.
Defined.

(** C4: an analyzer that has never seen a face answers UNKNOWN with score
    0.5 to a snapshot without a face, whatever the clock reads, and still
    has not seen one afterwards. *)
Theorem never_seen_face_unknown (now : time_point) (m : FocusMetrics)
    (a : FocusAnalyzer) :
  ever_seen_face_ a = false ->
  face_detected m = false ->
  state (snd (analyze now m a)) = UNKNOWN
  /\ focus_score (snd (analyze now m a)) = f_0_5
  /\ state (snd (analyze now m a)) <> AWAY
  /\ ever_seen_face_ (fst (analyze now m a)) = false.
Proof.
  intros Hever Hface.
  rewrite !state_verdict, score_verdict, (analyze_noface_state now m a Hface).
  rewrite Hever. cbn [andb fst snd].
  destruct (analyze_tracker now m a) as (_ & He & _).
  rewrite He, Hever, Hface.
  repeat split. discriminate.
Qed.

(** One hour after construction. *)
Lemma never_seen_face_unknown_witness :
  state (snd (analyze (seconds 3600) FocusMetrics_init fresh)) = UNKNOWN
  /\ focus_score (snd (analyze (seconds 3600) FocusMetrics_init fresh)) = f_0_5
  /\ state (snd (analyze (seconds 3600) FocusMetrics_init fresh)) <> AWAY
  /\ ever_seen_face_ (fst (analyze (seconds 3600) FocusMetrics_init fresh))
     = false.
Proof.
  apply (never_seen_face_unknown (seconds 3600) FocusMetrics_init fresh);
    reflexivity.
Defined.

(** From construction on, as long as no snapshot has a face, every answer
    is UNKNOWN with score 0.5. *)
Lemma run_without_face (calls : list (time_point * FocusMetrics))
    (a : FocusAnalyzer) :
  ever_seen_face_ a = false ->
  Forall (fun c => face_detected (snd c) = false) calls ->
  Forall (fun r => state r = UNKNOWN /\ focus_score r = f_0_5)
         (snd (run_analyzer calls a)).
Proof.
  revert a. induction calls as [| [now m] rest IH]; intros a Hever Hall.
  - constructor.
  - inversion Hall as [| c cs Hm Hrest]; subst. cbn [snd] in Hm.
    destruct (never_seen_face_unknown now m a Hever Hm) as (Hs & Hf & _ & He).
    cbn [run_analyzer].
    destruct (analyze now m a) as [a1 r] eqn:Ha. cbn [fst snd] in *.
    specialize (IH a1 He Hrest).
    destruct (run_analyzer rest a1) as [a2 rs]. cbn [snd] in *.
    constructor; [split; assumption | assumption].
Qed.

Lemma drowsy_condition_collapse (th : FocusThresholds) (m : FocusMetrics) :
  drowsy_condition th m = drowsy_spec th m.
Proof.
  unfold drowsy_condition, drowsy_spec, high_blink_rate.
  destruct (F32.gtb _ _), (slow_breathing m); reflexivity.
Qed.

Lemma drowsy_iff (now : time_point) (m : FocusMetrics) (a : FocusAnalyzer) :
  state (snd (analyze now m a)) = DROWSY <->
  face_detected m = true /\ is_talking m = false
  /\ has_gaze m
     && F32.gtb (gaze_mag m) (gaze_distraction_threshold (thresholds_ a))
     = false
  /\ drowsy_spec (thresholds_ a) m = true.
Proof.
  rewrite state_verdict, <- drowsy_condition_collapse.
  destruct (face_detected m) eqn:Hface.
  - rewrite (analyze_face_state now m a Hface).
    destruct (is_talking m); [split; [discriminate | intros (_ & ? & _); discriminate]|].
    destruct (has_gaze m && _);
      [split; [discriminate | intros (_ & _ & ? & _); discriminate]|].
    destruct (drowsy_condition _ m); [split; auto|].
    destruct (elevated_pulse _ m && fast_breathing _ m);
      (split; [discriminate | intros (_ & _ & _ & ?); discriminate]).
  - rewrite (analyze_noface_state now m a Hface).
    destruct (ever_seen_face_ a && _);
      (split; [discriminate | intros (? & _); discriminate]).
Qed.

(** C7: the condition the code tests for DROWSY,
    [high_blink_rate || (high_blink_rate && slow_breathing)], equals the
    collapsed condition "blink rate above the drowsy threshold"; DROWSY is
    chosen exactly when the check is reached and that condition holds, and
    replacing the breathing fields of the snapshot never changes whether
    DROWSY is chosen. *)
Theorem drowsy_condition_equiv :
  (forall th m, drowsy_condition th m = drowsy_spec th m)
  /\ (forall now m a,
        state (snd (analyze now m a)) = DROWSY <->
        face_detected m = true /\ is_talking m = false
        /\ has_gaze m
           && F32.gtb (gaze_mag m) (gaze_distraction_threshold (thresholds_ a))
           = false
        /\ drowsy_spec (thresholds_ a) m = true)
  /\ (forall now m a present rate conf,
        state (snd (analyze now m a)) = DROWSY <->
        state (snd (analyze now (with_breathing present rate conf m) a))
        = DROWSY).
Proof.
  split; [exact drowsy_condition_collapse|].
  split; [exact drowsy_iff|].
  intros now m a present rate conf.
  rewrite !drowsy_iff. reflexivity.
Qed.

(** C9: with a face in the snapshot the answer is one of TALKING,
    DISTRACTED, DROWSY, STRESSED and FOCUSED, never UNKNOWN nor AWAY, and the
    tracker records the sighting. *)
Theorem face_present_states (now : time_point) (m : FocusMetrics)
    (a : FocusAnalyzer) :
  face_detected m = true ->
  In (state (snd (analyze now m a)))
     [TALKING; DISTRACTED; DROWSY; STRESSED; FOCUSED]
  /\ state (snd (analyze now m a)) <> UNKNOWN
  /\ state (snd (analyze now m a)) <> AWAY
  /\ ever_seen_face_ (fst (analyze now m a)) = true
  /\ last_face_seen_ (fst (analyze now m a)) = now.
Proof.
  intros Hface.
  destruct (analyze_tracker now m a) as (_ & He & Hl & _).
  rewrite He, Hl, Hface. cbn [orb].
  rewrite !state_verdict, (analyze_face_state now m a Hface).
  destruct (is_talking m); cbn [fst In];
    [repeat split; try discriminate; auto |].
  destruct (has_gaze m && _); cbn [fst In];
    [repeat split; try discriminate; auto |].
  destruct (drowsy_condition _ m); cbn [fst In];
    [repeat split; try discriminate; auto |].
  destruct (elevated_pulse _ m && fast_breathing _ m); cbn [fst In];
    repeat split; try discriminate; auto 6.
Qed.

Lemma face_present_states_witness :
  In (state (snd (analyze (seconds 7) face_only fresh)))
     [TALKING; DISTRACTED; DROWSY; STRESSED; FOCUSED]
  /\ state (snd (analyze (seconds 7) face_only fresh)) <> UNKNOWN
  /\ state (snd (analyze (seconds 7) face_only fresh)) <> AWAY
  /\ ever_seen_face_ (fst (analyze (seconds 7) face_only fresh)) = true
  /\ last_face_seen_ (fst (analyze (seconds 7) face_only fresh)) = seconds 7.
Proof.
  apply (face_present_states (seconds 7) face_only fresh). reflexivity.
Defined.

Lemma run_analyzer_cons now m rest a :
  fst (run_analyzer ((now, m) :: rest) a)
  = fst (run_analyzer rest (fst (analyze now m a))).
Proof.
  cbn [run_analyzer]. destruct (analyze now m a) as [a1 r]. cbn [fst].
  destruct (run_analyzer rest a1). reflexivity.
Qed.

Lemma run_without_face_tracker (calls : list (time_point * FocusMetrics))
    (a : FocusAnalyzer) :
  Forall (fun c => face_detected (snd c) = false) calls ->
  thresholds_ (fst (run_analyzer calls a)) = thresholds_ a
  /\ ever_seen_face_ (fst (run_analyzer calls a)) = ever_seen_face_ a
  /\ last_face_seen_ (fst (run_analyzer calls a)) = last_face_seen_ a.
Proof.
  revert a. induction calls as [| [now m] rest IH]; intros a Hall.
  - repeat split.
  - inversion Hall as [| c cs Hm Hrest]; subst. cbn [snd] in Hm.
    rewrite run_analyzer_cons.
    destruct (IH (fst (analyze now m a)) Hrest) as (-> & -> & ->).
    destruct (analyze_tracker now m a) as (-> & -> & -> & _).
    rewrite Hm. repeat split.
Qed.

Lemma absence_duration_ms (now last_seen : time_point) :
  absence_duration now last_seen = quotient_ms (duration_cast_ms (now - last_seen)).
Proof. reflexivity. Qed.

(** C5, as the code has it, for the timeout of 3.0 s that [main] always
    uses: after a face at [t0] and then only snapshots without a face, the
    answer is not AWAY while less than 3 s have elapsed, it is UNKNOWN with
    score 0.5 up to 3.001 s (the elapsed time is cut to whole milliseconds
    before the strict comparison), and it is AWAY with score 0.0 from 3.001 s
    on. *)
Theorem away_after_timeout (a0 : FocusAnalyzer) (t0 : time_point)
    (mf : FocusMetrics) (calls : list (time_point * FocusMetrics))
    (now : time_point) (m : FocusMetrics) :
  face_absence_timeout_s (thresholds_ a0) = f_3_0 ->
  face_detected mf = true ->
  Forall (fun c => face_detected (snd c) = false) calls ->
  face_detected m = false ->
  t0 <= now ->
  (now - t0 < seconds 3 ->
     state (snd (analyze now m (fst (run_analyzer ((t0, mf) :: calls) a0))))
     <> AWAY)
  /\ (now - t0 < seconds 3 + ns_per_ms ->
        verdict (analyze now m (fst (run_analyzer ((t0, mf) :: calls) a0)))
        = (UNKNOWN, f_0_5))
  /\ (seconds 3 + ns_per_ms <= now - t0 ->
        verdict (analyze now m (fst (run_analyzer ((t0, mf) :: calls) a0)))
        = (AWAY, f_0_0)).
Proof.
  intros Hth Hmf Hcalls Hm Hmono.
  rewrite run_analyzer_cons.
  set (a := fst (run_analyzer calls (fst (analyze t0 mf a0)))).
  destruct (run_without_face_tracker calls (fst (analyze t0 mf a0)) Hcalls)
    as (Ht & He & Hl).
  destruct (analyze_tracker t0 mf a0) as (Ht0 & He0 & Hl0 & _).
  rewrite Ht0 in Ht. rewrite He0, Hmf in He. rewrite Hl0, Hmf in Hl.
  cbn [orb] in He. fold a in Ht, He, Hl.
  assert (Hv : verdict (analyze now m a)
               = if F32.gtb (quotient_ms (duration_cast_ms (now - t0))) f_3_0
                 then (AWAY, f_0_0) else (UNKNOWN, f_0_5)).
  { rewrite (analyze_noface_state now m a Hm), He, Hl, Ht, Hth.
    rewrite absence_duration_ms. reflexivity. }
  assert (Hq : duration_cast_ms (now - t0) = (now - t0) / ns_per_ms).
  { unfold duration_cast_ms. apply Z.quot_div_nonneg; [lia | reflexivity]. }
  assert (Hsmall : now - t0 < seconds 3 + ns_per_ms ->
                   verdict (analyze now m a) = (UNKNOWN, f_0_5)).
  { intros Hlt. rewrite Hv, quotient_ms_le_3; [reflexivity|].
    rewrite Hq. split; [apply Z.div_pos; [lia | reflexivity]|].
    assert ((now - t0) / ns_per_ms < 3001); [|lia].
    apply Z.div_lt_upper_bound; [reflexivity|].
    unfold seconds, ns_per_s, ns_per_ms in *. lia. }
  split; [|split].
  - intros Hlt. rewrite state_verdict, Hsmall; [discriminate|].
    unfold ns_per_ms. lia.
  - exact Hsmall.
  - intros Hge. rewrite Hv, quotient_ms_gt_3; [reflexivity|].
    rewrite Hq. apply Z.div_le_lower_bound; [reflexivity|].
    unfold seconds, ns_per_s, ns_per_ms in *. lia.
Qed.

Lemma away_after_timeout_witness :
  verdict (analyze (seconds 4) FocusMetrics_init
             (fst (run_analyzer
                     [(0, face_only); (seconds 1, FocusMetrics_init)] fresh)))
  = (AWAY, f_0_0).
Proof.
  apply (away_after_timeout fresh 0 face_only [(seconds 1, FocusMetrics_init)]
           (seconds 4) FocusMetrics_init).
  - reflexivity.
  - reflexivity.
  - repeat constructor.
  - reflexivity.
  - vm_compute. discriminate.
  - vm_compute. discriminate.
Defined.

(** C5 fails as stated: 3.0005 s after the face was seen, more than the
    timeout of 3.0 s, the answer is UNKNOWN and not AWAY. *)
Lemma unknown_half_ms_after_timeout :
  face_absence_timeout_s (thresholds_ seen_at_0) = f_3_0
  /\ last_face_seen_ seen_at_0 = 0
  /\ seconds 3 < 3000500000 - 0
  /\ verdict (analyze 3000500000 FocusMetrics_init seen_at_0)
     = (UNKNOWN, f_0_5)
  /\ state (snd (analyze 3000500000 FocusMetrics_init seen_at_0)) <> AWAY.
Proof.
  repeat split; try reflexivity. vm_compute. discriminate.
Qed.

(** The two computed scores. *)
Lemma distracted_score_bounds (m : FocusMetrics) :
  F32.leb f_0_1 (distracted_score m) = true
  /\ F32.leb (distracted_score m) f_0_6 = true.
Proof.
  unfold distracted_score, F32.max.
  set (r := F32.sub f_0_6 (F32.mul (gaze_mag m) f_0_3)).
  destruct (F32.ltb f_0_1 r) eqn:Hlt; [|split; reflexivity].
  split; [apply ltb_leb; assumption|].
  destruct (sub_le_bound 10066330 (-24) (F32.mul (gaze_mag m) f_0_3))
    as [Hnan | Hle].
  - lia.
  - change (2 ^ 23) with 8388608. change (2 ^ 24) with 16777216. lia.
  - apply mul_nonneg; [apply sqrt_nonneg | reflexivity].
  - apply ltb_not_nan_r in Hlt. contradiction.
  - exact Hle.
Qed.

Lemma vitals_score_bounds (th : FocusThresholds) (m : FocusMetrics) :
  F32.ltb (pulse_stressed_threshold th) f_0_0 = false ->
  F32.leb f_0_0 (vitals_score th m) = true
  /\ F32.leb (vitals_score th m) f_1_0 = true.
Proof.
  intros Hth. unfold vitals_score.
  destruct (has_pulse m); cbn [andb]; [|split; reflexivity].
  destruct (F32.gtb (pulse_rate_bpm m) f_0_0) eqn:Hp; [|split; reflexivity].
  unfold F32.min.
  destruct (F32.ltb (F32.div _ _) f_1_0) eqn:Hq; [|split; reflexivity].
  split; [|apply ltb_leb; assumption].
  apply nonneg_leb_zero; [apply div_nonneg; assumption|].
  apply ltb_not_nan_l in Hq. assumption.
Qed.

(** C8, as the code has it: when the pulse threshold is not negative, the
    score lies in [0, 1]: 0.0 for AWAY, 0.3 for TALKING, a value in
    [0.1, 0.6] for DISTRACTED, 0.15 for DROWSY, 0.25 for STRESSED, 0.5 for
    UNKNOWN and, for FOCUSED, [min(1.0, threshold / pulse)] when the pulse is
    present and positive and 1.0 otherwise. *)
Theorem focus_score_range (now : time_point) (m : FocusMetrics)
    (a : FocusAnalyzer) :
  F32.ltb (pulse_stressed_threshold (thresholds_ a)) f_0_0 = false ->
  F32.leb f_0_0 (focus_score (snd (analyze now m a))) = true
  /\ F32.leb (focus_score (snd (analyze now m a))) f_1_0 = true
  /\ match state (snd (analyze now m a)) with
     | AWAY => focus_score (snd (analyze now m a)) = f_0_0
     | TALKING => focus_score (snd (analyze now m a)) = f_0_3
     | DISTRACTED =>
         F32.leb f_0_1 (focus_score (snd (analyze now m a))) = true
         /\ F32.leb (focus_score (snd (analyze now m a))) f_0_6 = true
     | DROWSY => focus_score (snd (analyze now m a)) = f_0_15
     | STRESSED => focus_score (snd (analyze now m a)) = f_0_25
     | UNKNOWN => focus_score (snd (analyze now m a)) = f_0_5
     | FOCUSED =>
         focus_score (snd (analyze now m a))
         = if has_pulse m && F32.gtb (pulse_rate_bpm m) f_0_0
           then F32.min f_1_0
                  (F32.div (pulse_stressed_threshold (thresholds_ a))
                           (pulse_rate_bpm m))
           else f_1_0
     end.
Proof.
  intros Hth. rewrite !state_verdict, !score_verdict.
  destruct (face_detected m) eqn:Hface.
  - rewrite (analyze_face_state now m a Hface).
    destruct (is_talking m); cbn [fst snd]; [repeat split|].
    destruct (has_gaze m && _); cbn [fst snd].
    { destruct (distracted_score_bounds m) as [Hlo Hhi].
      repeat split; try assumption.
      - unfold distracted_score, F32.max in *.
        destruct (F32.ltb f_0_1 _) eqn:Hlt; [|reflexivity].
        apply (ltb_finite_pos 13421773 (-27)). exact Hlt.
      - apply (leb_raise_exponent _ 10066330 (-24)); [lia | exact Hhi]. }
    destruct (drowsy_condition _ m); cbn [fst snd]; [repeat split|].
    destruct (elevated_pulse _ m && fast_breathing _ m); cbn [fst snd];
      [repeat split|].
    destruct (vitals_score_bounds (thresholds_ a) m Hth) as [Hlo Hhi].
    repeat split; assumption.
  - rewrite (analyze_noface_state now m a Hface).
    destruct (ever_seen_face_ a && _); cbn [fst snd]; repeat split.
Qed.

Lemma focus_score_range_witness :
  F32.leb f_0_0 (focus_score (snd (analyze 0 (vitals 120 18) fresh))) = true
  /\ F32.leb (focus_score (snd (analyze 0 (vitals 120 18) fresh))) f_1_0 = true
  /\ match state (snd (analyze 0 (vitals 120 18) fresh)) with
     | AWAY => focus_score (snd (analyze 0 (vitals 120 18) fresh)) = f_0_0
     | TALKING => focus_score (snd (analyze 0 (vitals 120 18) fresh)) = f_0_3
     | DISTRACTED =>
         F32.leb f_0_1 (focus_score (snd (analyze 0 (vitals 120 18) fresh)))
         = true
         /\ F32.leb (focus_score (snd (analyze 0 (vitals 120 18) fresh))) f_0_6
            = true
     | DROWSY => focus_score (snd (analyze 0 (vitals 120 18) fresh)) = f_0_15
     | STRESSED => focus_score (snd (analyze 0 (vitals 120 18) fresh)) = f_0_25
     | UNKNOWN => focus_score (snd (analyze 0 (vitals 120 18) fresh)) = f_0_5
     | FOCUSED =>
         focus_score (snd (analyze 0 (vitals 120 18) fresh))
         = if has_pulse (vitals 120 18)
              && F32.gtb (pulse_rate_bpm (vitals 120 18)) f_0_0
           then F32.min f_1_0
                  (F32.div (pulse_stressed_threshold (thresholds_ fresh))
                           (pulse_rate_bpm (vitals 120 18)))
           else f_1_0
     end.
Proof.
  apply (focus_score_range 0 (vitals 120 18) fresh). reflexivity.
Defined.

(** C8 fails as stated: with the pulse threshold set to -100 and a pulse of
    50, the answer is FOCUSED with score -2. *)
Lemma focused_score_below_zero :
  verdict (analyze 0 (vitals 50 18)
             (FocusAnalyzer_new 0 negative_pulse_threshold))
  = (FOCUSED, F32.of_Z (-2))
  /\ F32.leb f_0_0 (F32.of_Z (-2)) = false
  /\ F32.ltb (F32.of_Z (-2)) f_0_0 = true.
Proof. vm_compute. repeat split. Qed.

(** With the default thresholds the FOCUSED score reaches 0 when the pulse
    is infinite, and it is 0 for every pulse when the threshold is 0. *)
Example focused_score_zero :
  verdict (analyze 0 (set_pulse (S754_infinity false) f_1_0 face_only) fresh)
  = (FOCUSED, f_0_0).
Proof. vm_compute. reflexivity. Qed.

End AnalyzerFacts.

(** * Further properties *)

(** ** The JSON line emitter *)

Section EmitterFacts.

Import JsonEmitter.

Lemma unescape_escape_char (c : byte) (rest : list byte) :
  unescape (escape_char c ++ rest) = option_map (cons c) (unescape rest).
Proof. destruct c; reflexivity. Qed.

Lemma unescape_left_inverse (s : list byte) :
  unescape (escape_json_string s) = Some s.
Proof.
  induction s as [| c s IH]; [reflexivity|].
  cbn [escape_json_string]. rewrite unescape_escape_char, IH. reflexivity.
Qed.

Lemma escape_injective (s1 s2 : list byte) :
  escape_json_string s1 = escape_json_string s2 -> s1 = s2.
Proof.
  intros H. apply (f_equal unescape) in H.
  rewrite !unescape_left_inverse in H. injection H as H. exact H.
Qed.

(** X1: decoding the escaped text gives the text back, so that two texts
    with the same escaped form are equal. *)
Theorem escape_round_trip (s : list byte) :
  unescape (escape_json_string s) = Some s
  /\ (forall s', escape_json_string s' = escape_json_string s -> s' = s).
Proof.
  split; [apply unescape_left_inverse|].
  intros s' H. apply escape_injective. exact H.
Qed.

Lemma printableb_Forall (l : list byte) :
  forallb printableb l = true -> Forall printable l.
Proof.
  intros H. rewrite forallb_forall in H. apply Forall_forall.
  intros b Hb. apply N.leb_le, H, Hb.
Qed.

Lemma escape_char_printable (c : byte) : Forall printable (escape_char c).
Proof. apply printableb_Forall. destruct c; reflexivity. Qed.

Lemma escape_printable (s : list byte) :
  Forall printable (escape_json_string s).
Proof.
  induction s as [| c s IH]; [constructor|].
  cbn [escape_json_string]. apply Forall_app. split; [|exact IH].
  apply escape_char_printable.
Qed.

Lemma escape_char_length_b (c : byte) :
  (1 <=? length (escape_char c))%nat && (length (escape_char c) <=? 6)%nat
  && Bool.eqb (length (escape_char c) =? 1)%nat (plain c) = true.
Proof. destruct c; reflexivity. Qed.

Lemma escape_char_length (c : byte) :
  (1 <= length (escape_char c) <= 6)%nat
  /\ (length (escape_char c) = 1%nat <-> plain c = true).
Proof.
  pose proof (escape_char_length_b c) as H.
  apply andb_true_iff in H. destruct H as [H H3].
  apply andb_true_iff in H. destruct H as [H1 H2].
  apply Nat.leb_le in H1. apply Nat.leb_le in H2.
  apply Bool.eqb_prop in H3. split; [lia|].
  rewrite <- H3. apply iff_sym, Nat.eqb_eq.
Qed.

Lemma escape_char_plain (c : byte) : plain c = true -> escape_char c = [c].
Proof. destruct c; try discriminate; reflexivity. Qed.

Lemma escape_length (s : list byte) :
  (length s <= length (escape_json_string s) <= 6 * length s)%nat.
Proof.
  induction s as [| c s IH]; [cbn; lia|].
  cbn [escape_json_string]. rewrite length_app. cbn [length].
  destruct (escape_char_length c) as [Hc _]. lia.
Qed.

(** X2: the escaped text holds no control byte, in particular no newline,
    and is between one and six times as long as the text. *)
Theorem escape_output_is_safe (s : list byte) :
  Forall printable (escape_json_string s)
  /\ ~ In newline (escape_json_string s)
  /\ (length s <= length (escape_json_string s) <= 6 * length s)%nat.
Proof.
  split; [apply escape_printable|]. split; [|apply escape_length].
  intros Hin. pose proof (escape_printable s) as H.
  rewrite Forall_forall in H. specialize (H newline Hin).
  unfold printable, newline in H. cbn in H. lia.
Qed.

(** X3: the escaping leaves a text unchanged exactly when the text holds
    no quote, no backslash and no byte below 0x20; bytes from 0x7f on pass
    through as they are. *)
Theorem escape_fixed_iff (s : list byte) :
  escape_json_string s = s <-> forallb plain s = true.
Proof.
  split.
  - intros H. apply (f_equal (@length _)) in H.
    induction s as [| c s IH]; [reflexivity|].
    cbn [escape_json_string forallb] in *. rewrite length_app in H.
    cbn [length] in H.
    destruct (escape_char_length c) as [Hc Hiff].
    pose proof (escape_length s) as Hs.
    apply andb_true_iff. split.
    + apply Hiff. lia.
    + apply IH. lia.
  - induction s as [| c s IH]; [reflexivity|].
    cbn [forallb escape_json_string]. intros H.
    apply andb_true_iff in H. destruct H as [Hc Hs].
    rewrite (escape_char_plain c Hc), (IH Hs). reflexivity.
Qed.

(** X4: the escaping works byte by byte: the escaped form of a
    concatenation is the concatenation of the escaped forms. *)
Theorem escape_concat (a b : list byte) :
  escape_json_string (a ++ b) = escape_json_string a ++ escape_json_string b.
Proof.
  induction a as [| c a IH]; [reflexivity|].
  cbn [app escape_json_string]. rewrite IH, app_assoc. reflexivity.
Qed.

Lemma record_printable (type json_data : list byte) :
  Forall printable type -> Forall printable json_data ->
  Forall printable (record type json_data).
Proof.
  intros Ht Hd. unfold record.
  apply Forall_app; split; [apply printableb_Forall; reflexivity|].
  apply Forall_app; split; [exact Ht|].
  apply Forall_app; split; [apply printableb_Forall; reflexivity|].
  apply Forall_app; split; [exact Hd|].
  apply printableb_Forall; reflexivity.
Qed.

(** X5: [emit_status], [emit_error] and [emit_ready] append exactly one
    line to the output, whatever the message holds: a run of bytes without
    control characters, then a newline. *)
Theorem emitters_write_one_line (msg : list byte) (out : JsonEmitter.t) :
  (exists line, emit_status msg out = out ++ line ++ [newline]
                /\ Forall printable line)
  /\ (exists line, emit_error msg out = out ++ line ++ [newline]
                   /\ Forall printable line)
  /\ (exists line, emit_ready out = out ++ line ++ [newline]
                   /\ Forall printable line).
Proof.
  split; [|split]; eexists; (split; [reflexivity|]);
    apply record_printable; try (apply printableb_Forall; reflexivity).
  - apply Forall_app; split; [apply printableb_Forall; reflexivity|].
    apply Forall_app; split; [apply escape_printable|].
    apply printableb_Forall; reflexivity.
  - apply Forall_app; split; [apply printableb_Forall; reflexivity|].
    apply Forall_app; split; [apply escape_printable|].
    apply printableb_Forall; reflexivity.
Qed.

(** X6: the message of a status or error record can be told from the
    output: two messages append the same bytes only when they are equal. *)
Theorem emitted_message_is_determined (m1 m2 : list byte)
    (out : JsonEmitter.t) :
  (emit_status m1 out = emit_status m2 out <-> m1 = m2)
  /\ (emit_error m1 out = emit_error m2 out <-> m1 = m2).
Proof.
  split; (split; [|intros ->; reflexivity]);
    unfold emit_status, emit_error, emit, record; intros H;
    apply app_inv_head in H; apply app_inv_tail in H;
    apply app_inv_head in H; apply app_inv_head in H; apply app_inv_head in H;
    apply app_inv_tail in H; apply app_inv_head in H; apply app_inv_tail in H;
    apply escape_injective; exact H.
Qed.

(** A message with a backslash, a quote, a newline and the byte 0x01. *)
Example escape_sample :
  escape_json_string
    (text "a" ++ [backslash; quote; newline; Byte.x01] ++ text "z")
  = text "a" ++ [backslash; backslash; backslash; quote; backslash]
    ++ text "n" ++ [backslash] ++ text "u0001z".
Proof. reflexivity. Qed.

(** X7: the names of the seven states are pairwise distinct and need no
    escaping. *)
Theorem focus_state_names (s1 s2 : FocusState) :
  (focus_state_to_string s1 = focus_state_to_string s2 <-> s1 = s2)
  /\ escape_json_string (focus_state_to_string s1) = focus_state_to_string s1.
Proof.
  split; [split|].
  - destruct s1, s2; intros H; try reflexivity; discriminate H.
  - intros ->. reflexivity.
  - destruct s1; reflexivity.
Qed.

End EmitterFacts.

(** ** The collector over a run of callbacks *)

Section CollectorRuns.

Lemma update_blink_coherent (now : time_point) (f : Sdk.Face) (c : Collector) :
  coherent c -> coherent (update_blink now f c).
Proof.
  intros (Hg & Hp & Hr). unfold update_blink.
  destruct (negb (Sdk.empty (Sdk.blinking f))); [|repeat split; assumption].
  unfold coherent, estimate_blink_rate, update, current.
  cbn [blink current_metrics_ prev_blink_state blink_timestamps
       has_gaze face_detected is_blinking blink_rate_per_min
       set_is_blinking set_blink_rate_per_min].
  repeat split. exact Hg.
Qed.

Lemma update_talking_coherent (f : Sdk.Face) (c : Collector) :
  coherent c -> coherent (update_talking f c).
Proof.
  intros H. unfold update_talking.
  destruct (negb (Sdk.empty (Sdk.talking f))); exact H.
Qed.

Lemma update_gaze_coherent (f : Sdk.Face) (c : Collector) :
  face_detected (current c) = true -> coherent c -> coherent (update_gaze f c).
Proof.
  intros Hf (Hg & Hp & Hr). unfold update_gaze.
  destruct (negb _); [|repeat split; assumption].
  destruct (468 <=? _); [|repeat split; assumption].
  destruct (_ && _); [|repeat split; assumption].
  split; [intros _; exact Hf | split; assumption].
Qed.

Lemma update_blink_face (now : time_point) (f : Sdk.Face) (c : Collector) :
  face_detected (current (update_blink now f c)) = face_detected (current c).
Proof.
  unfold update_blink. destruct (negb _); [|reflexivity].
  destruct (estimate_blink_rate _ _ _). reflexivity.
Qed.

Lemma update_talking_face (f : Sdk.Face) (c : Collector) :
  face_detected (current (update_talking f c)) = face_detected (current c).
Proof. unfold update_talking. destruct (negb _); reflexivity. Qed.

Lemma collect_coherent (now : time_point) (cb : Callback) (c : Collector) :
  coherent c -> coherent (collect now cb c).
Proof.
  intros H. destruct cb as [metrics ts | metrics]; cbn [collect].
  - unfold process_core_metrics. cbv zeta.
    destruct (Sdk.mb_has_pulse metrics && _),
             (Sdk.mb_has_breathing metrics && _),
             (Sdk.mb_has_face metrics);
      try exact H;
      apply update_talking_coherent, update_blink_coherent;
      destruct H as (Hg & Hp & Hr); repeat split; assumption.
  - unfold process_edge_metrics. destruct (Sdk.has_face metrics).
    + apply update_gaze_coherent.
      * rewrite update_talking_face, update_blink_face. reflexivity.
      * apply update_talking_coherent, update_blink_coherent.
        destruct H as (Hg & Hp & Hr). repeat split; assumption.
    + destruct H as (Hg & Hp & Hr). repeat split; try assumption.
      cbn. discriminate.
Qed.

(** X8: after any sequence of refined and frame updates, at any clock
    readings, the snapshot reports a gaze only together with a face, its
    blinking flag is the flag the estimator remembers, and its blink rate
    is the length of the estimator's history, hence never negative. *)
Theorem collector_coherent (events : list (time_point * Callback)) :
  coherent (run_collector events Collector_init)
  /\ F32.leb f_0_0
       (blink_rate_per_min (current (run_collector events Collector_init)))
     = true.
Proof.
  assert (H : forall c, coherent c -> coherent (run_collector events c)).
  { induction events as [| [now cb] rest IH]; intros c Hc; [exact Hc|].
    cbn [run_collector]. apply IH, collect_coherent, Hc. }
  assert (H0 : coherent Collector_init) by (repeat split; discriminate).
  specialize (H _ H0). split; [exact H|].
  destruct H as (_ & _ & ->). apply float_of_size_nonneg.
Qed.

(** X9: a refined update never touches the gaze fields, never clears the
    face flag (it sets it when the update carries face data) and stores its
    timestamp. *)
Theorem core_update_frame (now : time_point) (metrics : Sdk.MetricsBuffer)
    (ts : Z) (c : Collector) :
  gaze_x (current (process_core_metrics now metrics ts c)) = gaze_x (current c)
  /\ gaze_y (current (process_core_metrics now metrics ts c))
     = gaze_y (current c)
  /\ has_gaze (current (process_core_metrics now metrics ts c))
     = has_gaze (current c)
  /\ face_detected (current (process_core_metrics now metrics ts c))
     = (Sdk.mb_has_face metrics || face_detected (current c))
  /\ timestamp_us (current (process_core_metrics now metrics ts c)) = ts.
Proof.
  unfold process_core_metrics. cbv zeta.
  destruct (Sdk.mb_has_pulse metrics && _),
           (Sdk.mb_has_breathing metrics && _),
           (Sdk.mb_has_face metrics); cbn [orb];
    try (repeat split; fail);
    unfold update_talking, update_blink;
    destruct (negb (Sdk.empty (Sdk.talking _))),
             (negb (Sdk.empty (Sdk.blinking _)));
    try destruct (estimate_blink_rate _ _ _); repeat split.
Qed.

(** X10: a frame update never touches the pulse, the breathing rate, their
    confidences and presence flags or the timestamp, and it sets the face
    flag to whether the frame carries a face. *)
Theorem edge_update_frame (now : time_point) (metrics : Sdk.Metrics)
    (c : Collector) :
  pulse_rate_bpm (current (process_edge_metrics now metrics c))
  = pulse_rate_bpm (current c)
  /\ pulse_confidence (current (process_edge_metrics now metrics c))
     = pulse_confidence (current c)
  /\ has_pulse (current (process_edge_metrics now metrics c))
     = has_pulse (current c)
  /\ breathing_rate_bpm (current (process_edge_metrics now metrics c))
     = breathing_rate_bpm (current c)
  /\ breathing_confidence (current (process_edge_metrics now metrics c))
     = breathing_confidence (current c)
  /\ has_breathing (current (process_edge_metrics now metrics c))
     = has_breathing (current c)
  /\ timestamp_us (current (process_edge_metrics now metrics c))
     = timestamp_us (current c)
  /\ face_detected (current (process_edge_metrics now metrics c))
     = Sdk.has_face metrics.
Proof.
  unfold process_edge_metrics. cbv zeta.
  destruct (Sdk.has_face metrics); [|repeat split].
  unfold update_gaze, update_talking, update_blink.
  destruct (negb (Sdk.empty (Sdk.landmarks _)));
    [destruct (468 <=? _); [destruct (_ && _)|]|];
    destruct (negb (Sdk.empty (Sdk.talking _))),
             (negb (Sdk.empty (Sdk.blinking _)));
    try destruct (estimate_blink_rate _ _ _); repeat split.
Qed.

Lemma collect_keeps_presence (now : time_point) (cb : Callback)
    (c : Collector) :
  (has_pulse (current c) = true ->
   has_pulse (current (collect now cb c)) = true)
  /\ (has_breathing (current c) = true ->
      has_breathing (current (collect now cb c)) = true).
Proof.
  destruct cb as [metrics ts | metrics]; cbn [collect].
  - unfold process_core_metrics. cbv zeta.
    destruct (Sdk.mb_has_pulse metrics && _),
             (Sdk.mb_has_breathing metrics && _),
             (Sdk.mb_has_face metrics);
      try (split; intros H; (exact H || reflexivity); fail);
      unfold update_talking, update_blink;
      destruct (negb (Sdk.empty (Sdk.talking _))),
               (negb (Sdk.empty (Sdk.blinking _)));
      try destruct (estimate_blink_rate _ _ _);
      split; intros H; (exact H || reflexivity).
  - unfold process_edge_metrics.
    destruct (Sdk.has_face metrics); [|split; intros H; exact H].
    unfold update_gaze, update_talking, update_blink.
    destruct (negb (Sdk.empty (Sdk.landmarks _)));
      [destruct (468 <=? _); [destruct (_ && _)|]|];
      destruct (negb (Sdk.empty (Sdk.talking _))),
               (negb (Sdk.empty (Sdk.blinking _)));
      try destruct (estimate_blink_rate _ _ _);
      split; intros H; exact H.
Qed.

(** X11: the presence flags of the pulse and of the breathing rate are
    never cleared: once set, they stay set over every later sequence of
    updates. *)
Theorem vitals_presence_is_monotone (events : list (time_point * Callback))
    (c : Collector) :
  (has_pulse (current c) = true ->
   has_pulse (current (run_collector events c)) = true)
  /\ (has_breathing (current c) = true ->
      has_breathing (current (run_collector events c)) = true).
Proof.
  revert c. induction events as [| [now cb] rest IH]; intros c;
    [split; auto|].
  cbn [run_collector].
  destruct (IH (collect now cb c)) as [IHp IHb].
  destruct (collect_keeps_presence now cb c) as [Hp Hb].
  split; auto.
Qed.

Lemma vitals_presence_is_monotone_witness :
  has_pulse
    (current (run_collector [(1, EdgeMetrics no_face_frame)]
                (run_collector [(0, CoreMetrics (pulse_only 72) 5)]
                   Collector_init))) = true.
Proof.
  apply (proj1 (vitals_presence_is_monotone
                  [(1, EdgeMetrics no_face_frame)]
                  (run_collector [(0, CoreMetrics (pulse_only 72) 5)]
                     Collector_init))).
  reflexivity.
Defined.

Lemma keep_last_spec {A} (l : list A) (d : A) :
  Sdk.empty (keep_last l) = Sdk.empty l
  /\ Sdk.rbegin (keep_last l) d = Sdk.rbegin l d.
Proof.
  unfold keep_last, Sdk.rbegin.
  destruct l as [| x l] using rev_ind; [split; reflexivity|].
  rewrite rev_app_distr. cbn [rev app].
  rewrite last_last. split; [|reflexivity].
  destruct l; reflexivity.
Qed.

(** X12: an update depends on the latest element of each repeated field
    only: cutting every list of samples, detection states and landmark sets
    down to its last element changes nothing. *)
Theorem updates_use_latest (now : time_point) (c : Collector) :
  (forall metrics,
     process_edge_metrics now metrics c
     = process_edge_metrics now (latest_of_frame metrics) c)
  /\ (forall metrics ts,
        process_core_metrics now metrics ts c
        = process_core_metrics now (latest_of_buffer metrics) ts c).
Proof.
  split.
  - intros metrics.
    unfold process_edge_metrics, latest_of_frame. cbn [Sdk.has_face Sdk.face].
    destruct (Sdk.has_face metrics); [|reflexivity].
    unfold update_gaze, update_talking, update_blink, latest_of_face.
    cbn [Sdk.blinking Sdk.talking Sdk.landmarks].
    destruct (keep_last_spec (Sdk.blinking (Sdk.face metrics))
                Sdk.DetectionStatus_default) as [-> ->].
    destruct (keep_last_spec (Sdk.talking (Sdk.face metrics))
                Sdk.DetectionStatus_default) as [-> ->].
    destruct (keep_last_spec (Sdk.landmarks (Sdk.face metrics))
                Sdk.Landmarks_default) as [-> ->].
    reflexivity.
  - intros metrics ts.
    unfold process_core_metrics, latest_of_buffer.
    cbn [Sdk.mb_has_pulse Sdk.mb_pulse_rate Sdk.mb_has_breathing
         Sdk.mb_breathing_rate Sdk.mb_has_face Sdk.mb_face].
    destruct (keep_last_spec (Sdk.mb_pulse_rate metrics)
                Sdk.Measurement_default) as [-> ->].
    destruct (keep_last_spec (Sdk.mb_breathing_rate metrics)
                Sdk.Measurement_default) as [-> ->].
    unfold update_talking, update_blink, latest_of_face.
    cbn [Sdk.blinking Sdk.talking Sdk.landmarks].
    destruct (keep_last_spec (Sdk.blinking (Sdk.mb_face metrics))
                Sdk.DetectionStatus_default) as [-> ->].
    destruct (keep_last_spec (Sdk.talking (Sdk.mb_face metrics))
                Sdk.DetectionStatus_default) as [-> ->].
    reflexivity.
Qed.

End CollectorRuns.

(** ** The blink history *)

Section HistoryFacts.

Lemma pushed_sorted (calls : list (time_point * bool)) (now : time_point)
    (b : bool) :
  StronglySorted Z.le (map fst calls ++ [now]) ->
  StronglySorted Z.le
    (pushed now b
       (prev_blink_state (fst (run_estimator calls BlinkEstimator_init)))
       (blink_timestamps (fst (run_estimator calls BlinkEstimator_init)))).
Proof.
  intros Hsorted.
  assert (Hq : StronglySorted Z.le
                 (blink_timestamps (fst (run_estimator calls BlinkEstimator_init))
                  ++ [now]))
    by (apply run_deque_sorted; exact Hsorted).
  unfold pushed. destruct (b && negb _); [exact Hq|].
  apply sorted_app_left with [now]. exact Hq.
Qed.

Lemma history_after_filter (calls : list (time_point * bool))
    (now : time_point) (b : bool) :
  StronglySorted Z.le (map fst calls ++ [now]) ->
  history_after calls now b
  = filter (in_window now) (onsets false (calls ++ [(now, b)])).
Proof.
  intros Hsorted. unfold history_after.
  destruct (estimate_deque now b (fst (run_estimator calls BlinkEstimator_init)))
    as (-> & _ & _).
  assert (Hle : Forall (fun t => t <= now) (map fst calls))
    by (apply sorted_before_last; exact Hsorted).
  rewrite (evict_sorted _ _ (pushed_sorted calls now b Hsorted)).
  rewrite onsets_snoc, filter_window.
  2:{ unfold pushed. destruct (b && negb _).
      - apply Forall_app. split; [apply onsets_times; exact Hle|].
        constructor; [lia | constructor].
      - apply onsets_times; exact Hle. }
  rewrite run_prev. cbn [BlinkEstimator_init prev_blink_state].
  assert (Hf : filter (fun t => now - seconds 60 <=? t)
                 (blink_timestamps (fst (run_estimator calls BlinkEstimator_init)))
               = filter (fun t => now - seconds 60 <=? t) (onsets false calls)).
  { rewrite run_filter; [reflexivity|].
    rewrite Forall_forall. intros cl Hcl.
    rewrite Forall_forall in Hle.
    specialize (Hle (fst cl) (in_map fst _ _ Hcl)). lia. }
  unfold pushed. destruct (b && negb (last_flag false calls)).
  - rewrite !filter_app. f_equal. exact Hf.
  - exact Hf.
Qed.

(** X13: under the monotonic clock, the history a call leaves is exactly
    the list of the onsets that lie in the 60 seconds ending at the call,
    oldest first: it is sorted and holds nothing older than the window. *)
Theorem history_is_window (calls : list (time_point * bool))
    (now : time_point) (b : bool) :
  Sorted Z.le (map fst (calls ++ [(now, b)])) ->
  history_after calls now b
  = filter (in_window now) (onsets false (calls ++ [(now, b)]))
  /\ StronglySorted Z.le (history_after calls now b)
  /\ Forall (fun t => now - seconds 60 <= t <= now) (history_after calls now b).
Proof.
  intros Hsorted.
  apply Sorted_StronglySorted in Hsorted; [|exact Z.le_trans].
  rewrite map_app in Hsorted. cbn [map fst] in Hsorted.
  pose proof (history_after_filter calls now b Hsorted) as Heq.
  split; [exact Heq|]. split.
  - unfold history_after.
    destruct (estimate_deque now b
                (fst (run_estimator calls BlinkEstimator_init)))
      as (-> & _ & _).
    rewrite <- (app_nil_r (evict _ _)). apply evict_suffix_sorted.
    rewrite app_nil_r. apply pushed_sorted. exact Hsorted.
  - rewrite Heq. apply Forall_forall. intros t Ht.
    apply filter_In in Ht. destruct Ht as [_ Ht]. unfold in_window in Ht.
    apply andb_true_iff in Ht. destruct Ht as [H1 H2].
    apply Z.leb_le in H1. apply Z.leb_le in H2. lia.
Qed.

Lemma history_is_window_witness :
  history_after two_blinks (seconds 70) true = [seconds 30].
Proof.
  apply (eq_trans
           (proj1 (history_is_window two_blinks (seconds 70) true
                     ltac:(repeat constructor; vm_compute; discriminate)))).
  reflexivity.
Defined.

Lemma evict_split (c : time_point) (q : list time_point) :
  exists dropped,
    q = dropped ++ evict c q /\ Forall (fun t => t < c) dropped.
Proof.
  induction q as [| x q IH]; [exists []; split; [reflexivity | constructor]|].
  cbn [evict]. destruct (Z.ltb_spec x c) as [Hlt | Hge].
  - destruct IH as (d & Hd & Hall). exists (x :: d). split.
    + cbn [app]. f_equal. exact Hd.
    + constructor; assumption.
  - exists []. split; [reflexivity | constructor].
Qed.

Lemma evict_head (c : time_point) (q : list time_point) (t : time_point) :
  hd_error (evict c q) = Some t -> c <= t.
Proof.
  induction q as [| x q IH]; [discriminate|].
  cbn [evict]. destruct (Z.ltb_spec x c) as [Hlt | Hge]; [exact IH|].
  cbn [hd_error]. intros H. injection H as <-. exact Hge.
Qed.

Lemma evict_length (c : time_point) (q : list time_point) :
  (length (evict c q) <= length q)%nat.
Proof.
  induction q as [| x q IH]; [cbn; lia|].
  cbn [evict]. destruct (x <? c); cbn [length]; lia.
Qed.

(** X14: one call, whatever the clock reads: the eviction drops a prefix
    of entries older than the cutoff and stops at the first entry that is
    not, so the front of the history is never older than 60 seconds; the
    history grows by at most the one onset of the call; the flag of the call
    is remembered. *)
Theorem estimate_step (now : time_point) (b : bool) (st : BlinkEstimator) :
  (exists dropped,
      pushed now b (prev_blink_state st) (blink_timestamps st)
      = dropped ++ blink_timestamps (fst (estimate_blink_rate now b st))
      /\ Forall (fun t => t < now - seconds 60) dropped)
  /\ (forall t,
        hd_error (blink_timestamps (fst (estimate_blink_rate now b st)))
        = Some t -> now - seconds 60 <= t)
  /\ (length (blink_timestamps (fst (estimate_blink_rate now b st)))
      <= length (blink_timestamps st)
         + (if b && negb (prev_blink_state st) then 1 else 0))%nat
  /\ prev_blink_state (fst (estimate_blink_rate now b st)) = b.
Proof.
  destruct (estimate_deque now b st) as (-> & -> & _).
  split; [apply evict_split|]. split; [apply evict_head|].
  split; [|reflexivity].
  pose proof (evict_length (now - seconds 60)
                (pushed now b (prev_blink_state st) (blink_timestamps st)))
    as Hlen.
  unfold pushed in *.
  destruct (b && negb (prev_blink_state st));
    [rewrite length_app in Hlen; cbn [length] in Hlen|]; lia.
Qed.

(** X15: old entries age out: under the monotonic clock, when every
    earlier call is more than 60 seconds old and the flag of the call is not
    set, the history is empty and the rate is +0. *)
Theorem history_ages_out (calls : list (time_point * bool))
    (now : time_point) :
  Sorted Z.le (map fst calls) ->
  Forall (fun c => fst c < now - seconds 60) calls ->
  history_after calls now false = [] /\ rate_after calls now false = f_0_0.
Proof.
  intros Hsorted Hold.
  assert (Hss : StronglySorted Z.le (map fst calls ++ [now])).
  { apply Sorted_StronglySorted in Hsorted; [|exact Z.le_trans].
    induction calls as [| [t f] rest IH]; cbn [map app fst].
    - repeat constructor.
    - inversion Hsorted as [| x l Hl Hall]; subst.
      inversion Hold as [| y l' Ht Hrest]; subst. cbn [fst] in Ht.
      constructor; [apply IH; assumption|].
      apply Forall_app. split; [exact Hall|].
      constructor; [|constructor]. unfold seconds, ns_per_s in Ht. lia. }
  assert (Hs : Sorted Z.le (map fst (calls ++ [(now, false)]))).
  { rewrite map_app. cbn [map fst]. apply StronglySorted_Sorted. exact Hss. }
  assert (Hempty : filter (in_window now) (onsets false (calls ++ [(now, false)]))
                   = []).
  { rewrite onsets_snoc. unfold pushed. cbn [andb].
    assert (Hall : Forall (fun t => t < now - seconds 60) (onsets false calls)).
    { apply onsets_times. apply Forall_forall. intros t Ht.
      apply in_map_iff in Ht. destruct Ht as (c & <- & Hc).
      rewrite Forall_forall in Hold. apply Hold, Hc. }
    induction (onsets false calls) as [| t l IH]; [reflexivity|].
    inversion Hall; subst. cbn [filter]. unfold in_window at 1.
    destruct (Z.leb_spec (now - seconds 60) t); [lia|].
    cbn [andb]. apply IH. assumption. }
  pose proof (history_after_filter calls now false Hss) as Hh.
  pose proof (rate_after_count calls now false Hs) as Hr.
  unfold onsets_in_window in Hr. rewrite Hempty in Hr, Hh.
  split; assumption.
Qed.

Lemma history_ages_out_witness :
  history_after two_blinks (seconds 100) false = []
  /\ rate_after two_blinks (seconds 100) false = f_0_0.
Proof.
  apply (history_ages_out two_blinks (seconds 100)).
  - repeat constructor; vm_compute; discriminate.
  - repeat constructor; vm_compute; reflexivity.
Defined.

End HistoryFacts.

(** ** The analyzer: history, NaN, the full score and the callbacks *)

Section AnalyzerRuns.

(** X16: with a face in the snapshot the answer depends on the snapshot and
    the thresholds only, not on the clock or on what the analyzer has seen
    before. *)
Theorem face_verdict_ignores_history (now now' : time_point) (m : FocusMetrics)
    (a a' : FocusAnalyzer) :
  face_detected m = true ->
  thresholds_ a = thresholds_ a' ->
  verdict (analyze now m a) = verdict (analyze now' m a').
Proof.
  intros Hface Hth.
  rewrite (analyze_face_state now m a Hface),
          (analyze_face_state now' m a' Hface), Hth.
  reflexivity.
Qed.

Lemma face_verdict_ignores_history_witness :
  verdict (analyze 0 both_triggers fresh)
  = verdict (analyze (seconds 9) both_triggers seen_at_0).
Proof.
  apply (face_verdict_ignores_history 0 (seconds 9) both_triggers
           fresh seen_at_0); reflexivity.
Defined.

Lemma analyze_state_eq (now : time_point) (m : FocusMetrics)
    (a : FocusAnalyzer) :
  fst (analyze now m a)
  = {| thresholds_ := thresholds_ a;
       current_state_ := state (snd (analyze now m a));
       last_face_seen_ := if face_detected m then now else last_face_seen_ a;
       ever_seen_face_ := face_detected m || ever_seen_face_ a |}.
Proof.
  destruct (analyze_tracker now m a) as (H1 & H2 & H3 & H4).
  destruct (fst (analyze now m a)) as [th cs ls es].
  cbn [thresholds_ current_state_ last_face_seen_ ever_seen_face_] in *.
  subst. reflexivity.
Qed.

(** X17: a second call with the same snapshot at the same clock reading
    gives the same state and score and leaves the analyzer as the first call
    left it. *)
Theorem analyze_idempotent (now : time_point) (m : FocusMetrics)
    (a : FocusAnalyzer) :
  verdict (analyze now m (fst (analyze now m a))) = verdict (analyze now m a)
  /\ fst (analyze now m (fst (analyze now m a))) = fst (analyze now m a).
Proof.
  assert (Hv : verdict (analyze now m (fst (analyze now m a)))
               = verdict (analyze now m a)).
  { destruct (face_detected m) eqn:Hface.
    - rewrite (analyze_face_state now m _ Hface),
              (analyze_face_state now m a Hface).
      destruct (analyze_tracker now m a) as (-> & _). reflexivity.
    - rewrite (analyze_noface_state now m _ Hface),
              (analyze_noface_state now m a Hface).
      destruct (analyze_tracker now m a) as (-> & -> & -> & _).
      rewrite Hface. reflexivity. }
  split; [exact Hv|].
  rewrite (analyze_state_eq now m (fst (analyze now m a))).
  rewrite (analyze_state_eq now m a) at 5.
  destruct (analyze_tracker now m a) as (-> & -> & -> & _).
  rewrite !state_verdict, Hv.
  destruct (face_detected m); reflexivity.
Qed.

Lemma away_iff (now : time_point) (m : FocusMetrics) (a : FocusAnalyzer) :
  state (snd (analyze now m a)) = AWAY <->
  face_detected m = false /\ ever_seen_face_ a = true
  /\ F32.gtb (absence_duration now (last_face_seen_ a))
             (face_absence_timeout_s (thresholds_ a)) = true.
Proof.
  rewrite state_verdict. destruct (face_detected m) eqn:Hface.
  - rewrite (analyze_face_state now m a Hface).
    destruct (is_talking m); [split; [discriminate | intros (? & _); discriminate]|].
    destruct (has_gaze m && _);
      [split; [discriminate | intros (? & _); discriminate]|].
    destruct (drowsy_condition _ m);
      [split; [discriminate | intros (? & _); discriminate]|].
    destruct (elevated_pulse _ m && fast_breathing _ m);
      (split; [discriminate | intros (? & _); discriminate]).
  - rewrite (analyze_noface_state now m a Hface).
    destruct (ever_seen_face_ a); cbn [andb].
    + destruct (F32.gtb _ _); cbn [fst]; split; auto;
        try discriminate. intros (_ & _ & ?); discriminate.
    + split; [discriminate | intros (_ & ? & _); discriminate].
Qed.

Lemma absence_exceeds_3_iff (now last_seen : time_point) :
  last_seen <= now ->
  F32.gtb (absence_duration now last_seen) f_3_0 = true
  <-> 3001 * ns_per_ms <= now - last_seen.
Proof.
  intros Hle. rewrite absence_duration_ms.
  assert (Hq : duration_cast_ms (now - last_seen)
               = (now - last_seen) / ns_per_ms).
  { unfold duration_cast_ms. apply Z.quot_div_nonneg; [lia | reflexivity]. }
  rewrite Hq.
  assert (H0 : 0 <= (now - last_seen) / ns_per_ms)
    by (apply Z.div_pos; [lia | reflexivity]).
  split.
  - intros Hgt.
    destruct (Z_lt_le_dec (now - last_seen) (3001 * ns_per_ms)) as [Hlt | Hge];
      [exfalso | exact Hge].
    rewrite quotient_ms_le_3 in Hgt; [discriminate|].
    split; [exact H0|].
    assert ((now - last_seen) / ns_per_ms < 3001); [|lia].
    apply Z.div_lt_upper_bound; [reflexivity|]. unfold ns_per_ms in *. lia.
  - intros Hge. apply quotient_ms_gt_3.
    apply Z.div_le_lower_bound; [reflexivity|]. unfold ns_per_ms in *. lia.
Qed.

(** X18: with the timeout of 3.0 s, once the answer is AWAY it stays AWAY,
    with score 0.0, for every later snapshot without a face. *)
Theorem away_persists (now : time_point) (m : FocusMetrics)
    (a : FocusAnalyzer) (calls : list (time_point * FocusMetrics)) :
  face_absence_timeout_s (thresholds_ a) = f_3_0 ->
  last_face_seen_ a <= now ->
  state (snd (analyze now m a)) = AWAY ->
  Forall (fun c => now <= fst c /\ face_detected (snd c) = false) calls ->
  Forall (fun r => state r = AWAY /\ focus_score r = f_0_0)
         (snd (run_analyzer calls (fst (analyze now m a)))).
Proof.
  intros Hth Hmono Haway Hcalls.
  apply away_iff in Haway. destruct Haway as (Hface & Hever & Hgt).
  rewrite Hth in Hgt. apply absence_exceeds_3_iff in Hgt; [|exact Hmono].
  destruct (analyze_tracker now m a) as (Ht & He & Hl & _).
  rewrite Hface in He, Hl. cbn [orb] in He.
  set (a1 := fst (analyze now m a)) in *.
  assert (Hinv : thresholds_ a1 = thresholds_ a
                 /\ ever_seen_face_ a1 = true
                 /\ last_face_seen_ a1 = last_face_seen_ a)
    by (rewrite He, Hever; repeat split; assumption).
  clearbody a1. clear Ht He Hl.
  revert a1 Hinv. induction calls as [| [t mt] rest IH]; intros a1 Hinv.
  - constructor.
  - inversion Hcalls as [| c cs [Ht Hm] Hrest]; subst. cbn [fst snd] in Ht, Hm.
    destruct Hinv as (H1 & H2 & H3).
    assert (Hv : verdict (analyze t mt a1) = (AWAY, f_0_0)).
    { rewrite (analyze_noface_state t mt a1 Hm), H1, H2, H3, Hth.
      cbn [andb].
      assert (Hg : F32.gtb (absence_duration t (last_face_seen_ a)) f_3_0 = true)
        by (apply absence_exceeds_3_iff; lia).
      rewrite Hg. reflexivity. }
    destruct (analyze_tracker t mt a1) as (Ht1 & He1 & Hl1 & _).
    rewrite Hm in He1, Hl1. cbn [orb] in He1.
    cbn [run_analyzer].
    destruct (analyze t mt a1) as [a2 r] eqn:Ha. cbn [fst snd] in *.
    specialize (IH Hrest a2 ltac:(repeat split; congruence)).
    destruct (run_analyzer rest a2) as [a3 rs]. cbn [snd] in *.
    constructor; [|exact IH].
    unfold verdict in Hv. cbn [snd] in Hv. injection Hv as -> ->.
    split; reflexivity.
Qed.

Lemma away_persists_witness :
  Forall (fun r => state r = AWAY /\ focus_score r = f_0_0)
    (snd (run_analyzer
            [(seconds 5, FocusMetrics_init); (seconds 9, FocusMetrics_init)]
            (fst (analyze (seconds 4) FocusMetrics_init seen_at_0)))).
Proof.
  apply (away_persists (seconds 4) FocusMetrics_init seen_at_0).
  - reflexivity.
  - vm_compute. discriminate.
  - vm_compute. reflexivity.
  - repeat constructor; vm_compute; discriminate.
Defined.

Lemma gtb_nan_l (x : float) : F32.gtb S754_nan x = false.
Proof. destruct x; reflexivity. Qed.

Lemma gaze_mag_nan (m : FocusMetrics) :
  gaze_x m = S754_nan \/ gaze_y m = S754_nan -> gaze_mag m = S754_nan.
Proof.
  unfold gaze_mag. intros [H | H]; rewrite H.
  - reflexivity.
  - change (F32.mul S754_nan S754_nan) with (S754_nan : float).
    destruct (F32.mul (gaze_x m) (gaze_x m)); reflexivity.
Qed.

(** X19: a NaN measurement never triggers a rule: a NaN gaze coordinate
    excludes DISTRACTED, a NaN blink rate excludes DROWSY, a NaN pulse or
    breathing rate excludes STRESSED, and with a NaN pulse the FOCUSED score
    is 1.0. *)
Theorem nan_disables_rules (now : time_point) (m : FocusMetrics)
    (a : FocusAnalyzer) :
  (gaze_x m = S754_nan \/ gaze_y m = S754_nan ->
   state (snd (analyze now m a)) <> DISTRACTED)
  /\ (blink_rate_per_min m = S754_nan ->
      state (snd (analyze now m a)) <> DROWSY)
  /\ (pulse_rate_bpm m = S754_nan \/ breathing_rate_bpm m = S754_nan ->
      state (snd (analyze now m a)) <> STRESSED)
  /\ (pulse_rate_bpm m = S754_nan ->
      state (snd (analyze now m a)) = FOCUSED ->
      focus_score (snd (analyze now m a)) = f_1_0).
Proof.
  rewrite !state_verdict, score_verdict.
  destruct (face_detected m) eqn:Hface.
  2:{ rewrite (analyze_noface_state now m a Hface).
      destruct (ever_seen_face_ a && _); cbn [fst snd];
        repeat split; intros; discriminate. }
  rewrite (analyze_face_state now m a Hface).
  split; [|split; [|split]].
  - intros Hnan. rewrite (gaze_mag_nan m Hnan), gtb_nan_l, andb_false_r.
    destruct (is_talking m); [discriminate|].
    destruct (drowsy_condition _ m); [discriminate|].
    destruct (elevated_pulse _ m && fast_breathing _ m); discriminate.
  - intros Hnan. rewrite drowsy_condition_collapse.
    unfold drowsy_spec. rewrite Hnan, gtb_nan_l.
    destruct (is_talking m); [discriminate|].
    destruct (has_gaze m && _); [discriminate|].
    destruct (elevated_pulse _ m && fast_breathing _ m); discriminate.
  - intros Hnan.
    assert (Hs : elevated_pulse (thresholds_ a) m
                 && fast_breathing (thresholds_ a) m = false).
    { unfold elevated_pulse, fast_breathing.
      destruct Hnan as [H | H]; rewrite H, gtb_nan_l, andb_false_r;
        [reflexivity | apply andb_false_r]. }
    rewrite Hs.
    destruct (is_talking m); [discriminate|].
    destruct (has_gaze m && _); [discriminate|].
    destruct (drowsy_condition _ m); discriminate.
  - intros Hnan.
    destruct (is_talking m); [discriminate|].
    destruct (has_gaze m && _); [discriminate|].
    destruct (drowsy_condition _ m); [discriminate|].
    destruct (elevated_pulse _ m && fast_breathing _ m); [discriminate|].
    intros _. cbn [snd]. unfold vitals_score.
    rewrite Hnan, gtb_nan_l, andb_false_r. reflexivity.
Qed.

Lemma nan_disables_rules_witness :
  verdict (analyze 0 all_nan fresh) = (FOCUSED, f_1_0).
Proof.
  pose proof (nan_disables_rules 0 all_nan fresh) as (_ & _ & _ & H).
  specialize (H eq_refl eq_refl).
  unfold verdict. rewrite H. reflexivity.
Defined.

Lemma valid_finite (s : bool) (m : positive) (e : Z) :
  F32.valid (S754_finite s m e) = true ->
  fexp32 (Zdigits2 (Zpos m) + e) = e /\ e <= 104.
Proof.
  unfold F32.valid, valid_binary, bounded, canonical_mantissa.
  intros H. apply andb_true_iff in H. destruct H as [H1 H2].
  apply Z.eqb_eq in H1. apply Z.leb_le in H2.
  split; [exact H1 | exact H2].
Qed.

(** Two canonical positive floats in the order [SFcompare] decides. *)
Lemma canonical_order (mx : positive) (ex : Z) (my : positive) (ey : Z) :
  fexp32 (Zdigits2 (Zpos mx) + ex) = ex ->
  fexp32 (Zdigits2 (Zpos my) + ey) = ey ->
  SFltb (S754_finite false mx ex) (S754_finite false my ey) = false ->
  ey <= ex /\ Zpos my <= Zpos mx * 2 ^ (ex - ey).
Proof.
  intros Hx Hy Hlt.
  destruct (Zdigits2_bounds (Zpos mx) ltac:(lia)) as [Hxlo Hxhi].
  destruct (Zdigits2_bounds (Zpos my) ltac:(lia)) as [Hylo Hyhi].
  pose proof (Zdigits2_pos (Zpos mx) ltac:(lia)) as Hdx.
  pose proof (Zdigits2_pos (Zpos my) ltac:(lia)) as Hdy.
  unfold SFltb, SFcompare in Hlt.
  destruct (Z.compare_spec ex ey) as [Heq | Hl | Hg]; try discriminate.
  - subst ey. split; [lia|]. rewrite Z.sub_diag. change (2 ^ 0) with 1.
    change (Pos.compare_cont Eq mx my) with (Pos.compare mx my) in Hlt.
    destruct (Pos.compare_spec mx my); try discriminate; lia.
  - split; [lia|].
    assert (Hd : Zdigits2 (Zpos mx) = 24) by (unfold fexp32 in *; lia).
    assert (Hdy24 : Zdigits2 (Zpos my) <= 24) by (unfold fexp32 in *; lia).
    rewrite Hd in Hxlo. change (2 ^ (24 - 1)) with 8388608 in Hxlo.
    assert (Zpos my < 2 ^ 24).
    { apply Z.lt_le_trans with (2 ^ Zdigits2 (Zpos my)); [lia|].
      apply Z.pow_le_mono_r; lia. }
    change (2 ^ 24) with 16777216 in *.
    assert (2 ^ 1 <= 2 ^ (ex - ey)) by (apply Z.pow_le_mono_r; lia).
    change (2 ^ 1) with 2 in *. nia.
Qed.

Lemma div_ge_one_finite (mx : positive) (ex : Z) (my : positive) (ey : Z) :
  fexp32 (Zdigits2 (Zpos mx) + ex) = ex ->
  fexp32 (Zdigits2 (Zpos my) + ey) = ey ->
  ey <= ex -> Zpos my <= Zpos mx * 2 ^ (ex - ey) ->
  F32.ltb (F32.div (S754_finite false mx ex) (S754_finite false my ey)) f_1_0
  = false.
Proof.
  intros Hx Hy Hle Hval.
  destruct (Zdigits2_bounds (Zpos mx) ltac:(lia)) as [Hxlo Hxhi].
  destruct (Zdigits2_bounds (Zpos my) ltac:(lia)) as [Hylo Hyhi].
  pose proof (Zdigits2_pos (Zpos mx) ltac:(lia)) as Hdx.
  pose proof (Zdigits2_pos (Zpos my) ltac:(lia)) as Hdy.
  assert (Hdx24 : Zdigits2 (Zpos mx) <= 24) by (unfold fexp32 in *; lia).
  unfold F32.div, SFdiv, SFdiv_core_binary. rewrite fexp32_eq.
  set (dx := Zdigits2 (Zpos mx)) in *. set (dy := Zdigits2 (Zpos my)) in *.
  set (e' := Z.min (fexp32 (dx + ex - (dy + ey))) (ex - ey)).
  set (s := ex - ey - e').
  assert (Hs : 0 <= s) by (unfold s, e'; lia).
  assert (Hm' : match s with
                | 0 => Zpos mx
                | Zpos _ => Z.shiftl (Zpos mx) s
                | Zneg _ => 0
                end = Zpos mx * 2 ^ s).
  { destruct s as [| p | p] eqn:Hse; [change (2 ^ 0) with 1; lia | | lia].
    apply Z.shiftl_mul_pow2. lia. }
  rewrite Hm'. clear Hm'.
  destruct (Z.div_eucl (Zpos mx * 2 ^ s) (Zpos my)) as [q r] eqn:Hq.
  apply div_eucl_div in Hq. cbn [xorb].
  assert (Hps : 0 < 2 ^ s) by (apply Z.pow_pos_nonneg; lia).
  assert (Hq0 : 0 <= q) by (subst q; apply Z.div_pos; lia).
  destruct (binary_round_aux_norm false q e' (new_location (Zpos my) r) Hq0)
    as (m2 & Hb & _ & Hm1 & He1 & Heq).
  cbn zeta in *. rewrite Heq. clear Heq.
  set (n1 := shift_of q e') in *.
  assert (Hn1 : 0 <= n1) by (unfold n1, shift_of; lia).
  assert (Hpn : 0 < 2 ^ n1) by (apply Z.pow_pos_nonneg; lia).
  set (e1 := e' + n1) in *.
  (* the quotient before rounding, as one division *)
  assert (Hm1eq : q / 2 ^ n1 = Zpos mx * 2 ^ s / (Zpos my * 2 ^ n1)).
  { subst q. rewrite Z.div_div by lia. reflexivity. }
  (* value at least one *)
  assert (F1 : e1 <= 0 -> 2 ^ (- e1) <= q / 2 ^ n1).
  { intros He. rewrite Hm1eq.
    apply Z.div_le_lower_bound; [lia|].
    assert (He' : e' <= 0) by (unfold e1 in He; lia).
    replace s with ((ex - ey) + (- e')) by (unfold s; lia).
    rewrite Z.pow_add_r by lia.
    replace (Zpos my * 2 ^ n1 * 2 ^ (- e1)) with (Zpos my * 2 ^ (- e')).
    2:{ rewrite <- Z.mul_assoc, <- Z.pow_add_r by (unfold e1 in *; lia).
        f_equal. f_equal. unfold e1. lia. }
    assert (0 < 2 ^ (- e')) by (apply Z.pow_pos_nonneg; lia).
    nia. }
  assert (F2 : 0 < e1 -> 1 <= q / 2 ^ n1).
  { intros He.
    destruct (Z.eq_dec n1 0) as [Hn0 | Hnz].
    - rewrite Hn0. change (2 ^ 0) with 1. rewrite Z.div_1_r.
      assert (He'pos : 0 < e') by (unfold e1 in He; lia).
      assert (Hsge : dy - dx + 24 <= s) by (unfold s, e', fexp32 in *; lia).
      subst q. apply Z.div_le_lower_bound; [lia|].
      assert (2 ^ (dy - dx + 24) <= 2 ^ s) by (apply Z.pow_le_mono_r; lia).
      assert (Hprod : 2 ^ (dx - 1) * 2 ^ (dy - dx + 24) = 2 ^ (dy + 23)).
      { rewrite <- Z.pow_add_r by lia. f_equal. lia. }
      assert (2 ^ dy <= 2 ^ (dy + 23)) by (apply Z.pow_le_mono_r; lia).
      nia.
    - assert (Hdq : n1 = Zdigits2 q - 24 /\ 24 < Zdigits2 q).
      { unfold n1, shift_of, fexp32 in *. unfold e1 in He. lia. }
      destruct Hdq as [Hn1eq Hdq].
      assert (Hqpos : 0 < q) by (destruct q; cbn in Hdq; lia).
      destruct (Zdigits2_bounds q Hqpos) as [Hqlo _].
      apply Z.div_le_lower_bound; [lia|].
      apply Z.le_trans with (2 ^ (Zdigits2 q - 1)); [|exact Hqlo].
      rewrite Z.mul_1_r. apply Z.pow_le_mono_r; lia. }
  assert (Hm1pos : 1 <= q / 2 ^ n1).
  { destruct (Z_le_gt_dec e1 0) as [Hle0 | Hgt0]; [|apply F2; lia].
    specialize (F1 Hle0).
    assert (0 < 2 ^ (- e1)) by (apply Z.pow_pos_nonneg; lia). lia. }
  assert (He23 : -23 <= e1).
  { destruct (Z_le_gt_dec (-23) e1) as [|Hlt]; [assumption|exfalso].
    specialize (F1 ltac:(lia)).
    assert (2 ^ 24 <= 2 ^ (- e1)) by (apply Z.pow_le_mono_r; lia). lia. }
  assert (Hat23 : e1 = -23 -> 2 ^ 23 <= q / 2 ^ n1).
  { intros Heq. specialize (F1 ltac:(lia)). rewrite Heq in F1. exact F1. }
  destruct (Z.ltb_spec m2 (2 ^ 24)) as [Hlt | Hge].
  - destruct m2 as [| p | p]; try lia. cbn [pack].
    destruct (e1 <=? 104); [|reflexivity].
    unfold F32.ltb, f_1_0, SFltb.
    set (k := 8388608%positive).
    assert (Hk : Zpos k = 2 ^ 23) by reflexivity.
    cbn [SFcompare].
    destruct (Z.compare_spec e1 (-23)) as [Heq | Hl | Hg];
      [| lia | reflexivity].
    specialize (Hat23 Heq).
    rewrite Pos.compare_cont_spec.
    destruct (Pos.compare_spec p k) as [Hc | Hc | Hc]; try reflexivity.
    exfalso. apply Pos2Z.pos_lt_pos in Hc. rewrite Hk in Hc. lia.
  - change (2 ^ 23) with 8388608. cbn [pack].
    destruct (e1 + 1 <=? 104); [|reflexivity].
    unfold F32.ltb, f_1_0, SFltb, SFcompare.
    destruct (Z.compare_spec (e1 + 1) (-23)); [lia | lia | reflexivity].
Qed.

Lemma div_ge_one (x y : float) :
  F32.valid x = true -> F32.valid y = true ->
  F32.gtb y F32.zero = true -> F32.gtb y x = false ->
  F32.ltb (F32.div x y) f_1_0 = false.
Proof.
  intros Hvx Hvy Hpos Hle.
  destruct y as [sy | [|] | | [|] my ey]; try discriminate.
  - destruct x as [sx | [|] | | [|] mx ex]; try discriminate; reflexivity.
  - destruct x as [sx | [|] | | [|] mx ex]; try discriminate;
      try reflexivity.
    apply valid_finite in Hvx. apply valid_finite in Hvy.
    destruct Hvx as [Hcx _]. destruct Hvy as [Hcy _].
    destruct (canonical_order mx ex my ey Hcx Hcy Hle) as [He Hv].
    apply div_ge_one_finite; assumption.
Qed.

(** X20: the FOCUSED score is exactly 1.0 whenever the pulse is not above
    the pulse threshold (both being values a [float] can hold): the quotient
    threshold / pulse, rounded to single precision, is never below 1. *)
Theorem no_penalty_up_to_threshold (now : time_point) (m : FocusMetrics)
    (a : FocusAnalyzer) :
  F32.valid (pulse_stressed_threshold (thresholds_ a)) = true ->
  F32.valid (pulse_rate_bpm m) = true ->
  F32.gtb (pulse_rate_bpm m) (pulse_stressed_threshold (thresholds_ a))
  = false ->
  state (snd (analyze now m a)) = FOCUSED ->
  focus_score (snd (analyze now m a)) = f_1_0.
Proof.
  intros Hvt Hvp Hle.
  rewrite state_verdict, score_verdict.
  destruct (face_detected m) eqn:Hface.
  2:{ rewrite (analyze_noface_state now m a Hface).
      destruct (ever_seen_face_ a && _); discriminate. }
  rewrite (analyze_face_state now m a Hface).
  destruct (is_talking m); [discriminate|].
  destruct (has_gaze m && _); [discriminate|].
  destruct (drowsy_condition _ m); [discriminate|].
  destruct (elevated_pulse _ m && fast_breathing _ m); [discriminate|].
  intros _. cbn [snd]. unfold vitals_score.
  destruct (has_pulse m); cbn [andb]; [|reflexivity].
  destruct (F32.gtb (pulse_rate_bpm m) f_0_0) eqn:Hpos; [|reflexivity].
  unfold F32.min. rewrite (div_ge_one _ _ Hvt Hvp Hpos Hle). reflexivity.
Qed.

Lemma no_penalty_up_to_threshold_witness :
  focus_score (snd (analyze 0 (vitals 99 15) fresh)) = f_1_0.
Proof.
  apply (no_penalty_up_to_threshold 0 (vitals 99 15) fresh);
    vm_compute; reflexivity.
Defined.

(** Above the threshold the score drops: pulse 120 against 100. *)
Example penalty_above_threshold :
  verdict (analyze 0 (vitals 120 15) fresh)
  = (FOCUSED, F32.div f_100_0 (F32.of_Z 120)).
Proof. vm_compute. reflexivity. Qed.

Lemma edge_face_detected (now : time_point) (metrics : Sdk.Metrics)
    (c : Collector) :
  face_detected (current (process_edge_metrics now metrics c))
  = Sdk.has_face metrics
  /\ (Sdk.has_face metrics = false ->
      has_gaze (current (process_edge_metrics now metrics c)) = false).
Proof.
  unfold process_edge_metrics. destruct (Sdk.has_face metrics).
  - split; [|discriminate].
    unfold update_gaze, update_talking, update_blink.
    destruct (negb (Sdk.empty (Sdk.landmarks _)));
      [destruct (468 <=? _); [destruct (_ && _)|]|];
      destruct (negb (Sdk.empty (Sdk.talking _))),
               (negb (Sdk.empty (Sdk.blinking _)));
      try destruct (estimate_blink_rate _ _ _); reflexivity.
  - split; reflexivity.
Qed.

Lemma face_states (now : time_point) (m : FocusMetrics) (a : FocusAnalyzer) :
  In (state (snd (analyze now m a)))
     [TALKING; DISTRACTED; DROWSY; STRESSED; FOCUSED]
  <-> face_detected m = true.
Proof.
  rewrite state_verdict. destruct (face_detected m) eqn:Hface.
  - rewrite (analyze_face_state now m a Hface). split; [reflexivity|].
    intros _.
    destruct (is_talking m); [cbn; auto|].
    destruct (has_gaze m && _); [cbn; auto|].
    destruct (drowsy_condition _ m); [cbn; auto|].
    destruct (elevated_pulse _ m && fast_breathing _ m); cbn; auto 6.
  - rewrite (analyze_noface_state now m a Hface). split; [|discriminate].
    destruct (ever_seen_face_ a && _); cbn [fst In];
      intros H; repeat (destruct H as [H | H]; [discriminate|]);
      destruct H.
Qed.

(** X21: the frame callback: the answer is one of TALKING, DISTRACTED,
    DROWSY, STRESSED and FOCUSED exactly when the frame carries a face, and
    UNKNOWN or AWAY exactly when it does not; the snapshot handed on is the
    collector's. *)
Theorem edge_callback_follows_face (now_collect now_analyze : time_point)
    (metrics : Sdk.Metrics) (ca : Collector * FocusAnalyzer) :
  (In (state (answer (on_edge_metrics now_collect now_analyze metrics ca)))
      [TALKING; DISTRACTED; DROWSY; STRESSED; FOCUSED]
   <-> Sdk.has_face metrics = true)
  /\ (In (state (answer (on_edge_metrics now_collect now_analyze metrics ca)))
         [UNKNOWN; AWAY]
      <-> Sdk.has_face metrics = false)
  /\ snapshot (answer (on_edge_metrics now_collect now_analyze metrics ca))
     = current (fst (fst (on_edge_metrics now_collect now_analyze metrics ca))).
Proof.
  unfold on_edge_metrics, answer.
  set (c := process_edge_metrics now_collect metrics (fst ca)).
  destruct (edge_face_detected now_collect metrics (fst ca)) as [Hf _].
  fold c in Hf.
  pose proof (face_states now_analyze (current c) (snd ca)) as Hs.
  destruct (analyze now_analyze (current c) (snd ca)) as [a r] eqn:Ha.
  cbn [fst snd] in *. rewrite Hf in Hs.
  split; [exact Hs|]. split.
  - split.
    + intros Hin. destruct (Sdk.has_face metrics); [|reflexivity].
      exfalso. destruct Hs as [_ Hs]. specialize (Hs eq_refl).
      cbn [In] in Hin, Hs.
      destruct Hin as [H | [H | []]]; rewrite <- H in Hs;
        repeat (destruct Hs as [Hs | Hs]; [discriminate|]); destruct Hs.
    + intros Hno.
      assert (Hn : ~ In (state r) [TALKING; DISTRACTED; DROWSY; STRESSED; FOCUSED]).
      { intros Hin. apply Hs in Hin. congruence. }
      destruct (state r); cbn [In] in *; auto; exfalso; apply Hn; auto 6.
  - assert (Hsn : snapshot (snd (analyze now_analyze (current c) (snd ca)))
                  = current c) by reflexivity.
    rewrite Ha in Hsn. exact Hsn.
Qed.

(** X22: the refined callback cannot report the loss of a face: its answer
    is one of the five face states exactly when the update carries face data
    or the snapshot had a face before. *)
Theorem core_callback_keeps_face (now_collect now_analyze : time_point)
    (metrics : Sdk.MetricsBuffer) (timestamp : Z)
    (ca : Collector * FocusAnalyzer) :
  In (state (answer (on_core_metrics now_collect now_analyze metrics timestamp ca)))
     [TALKING; DISTRACTED; DROWSY; STRESSED; FOCUSED]
  <-> Sdk.mb_has_face metrics || face_detected (current (fst ca)) = true.
Proof.
  unfold on_core_metrics, answer.
  set (c := process_core_metrics now_collect metrics timestamp (fst ca)).
  assert (Hf : face_detected (current c)
               = (Sdk.mb_has_face metrics || face_detected (current (fst ca)))).
  { unfold c, process_core_metrics. cbv zeta.
    destruct (Sdk.mb_has_pulse metrics && _),
             (Sdk.mb_has_breathing metrics && _),
             (Sdk.mb_has_face metrics); cbn [orb]; try reflexivity;
      unfold update_talking, update_blink;
      destruct (negb (Sdk.empty (Sdk.talking _))),
               (negb (Sdk.empty (Sdk.blinking _)));
      try destruct (estimate_blink_rate _ _ _); reflexivity. }
  pose proof (face_states now_analyze (current c) (snd ca)) as Hs.
  destruct (analyze now_analyze (current c) (snd ca)) as [a r].
  cbn [fst snd] in *. rewrite Hf in Hs. exact Hs.
Qed.

End AnalyzerRuns.
